(** * The benchmarking helpers of [boosting.ipynb]

    The notebook defines two functions, [score_and_time] and [ml_benchmark],
    and one ad hoc aggregation ([df_benchmark_total]).  Everything else is a
    call into NumPy, scikit-learn, XGBoost or pandas.

    Conventions of the embedding.
    - Python floats (binary64) are idealised as real numbers: the only
      rounding that is modelled is the one the source asks for, [round(_, 3)].
      [datetime.timedelta] and the pandas duration column are elapsed times
      in seconds, their resolution idealised in the same way.
    - The interpreter state is explicit: a heap that holds the array objects
      the arguments [X_dataset] and [y_dataset] refer to, the state of the
      external libraries (global NumPy generator, CPU clock), and a log of
      the observable events.
    - A Python exception is a value of type [exn]; a computation returns
      either a value or a raised exception, together with the final state. *)

From Stdlib Require Import String.
From Stdlib Require Import Reals Lra Lia ZArith List Bool.
From Stdlib Require Import Permutation Sorted.
Import ListNotations.

Local Open Scope R_scope.

(** ** Numbers: [round], [ndarray.mean], [ndarray.std] *)

Module Numeric.

(** Nearest integer, ties to the even neighbour (IEEE [rint]; the tie rule
    of Python's [round] and of NumPy's [around]). *)
Definition rint (x : R) : Z :=
  let n := Int_part x in
  let f := x - IZR n in
  if Rlt_dec f (1 / 2) then n
  else if Rlt_dec (1 / 2) f then (n + 1)%Z
  else if Z.even n then n else (n + 1)%Z.

(** [round(x, ndigits)] for a non-negative [ndigits]. *)
Definition round (x : R) (ndigits : nat) : R :=
  IZR (rint (x * 10 ^ ndigits)) / 10 ^ ndigits.

(** [a.sum()] *)
Definition np_sum (a : list R) : R := fold_right Rplus 0 a.

(** [a.mean()]: the sum over the number of items. *)
Definition np_mean (a : list R) : R := np_sum a / INR (length a).

(** [a.var()] with NumPy's default [ddof=0]: the mean of the squared
    deviations from the mean (divisor [n]). *)
Definition np_var (a : list R) : R :=
  np_mean (map (fun x => (x - np_mean a) * (x - np_mean a)) a).

(** [a.std()] with NumPy's default [ddof=0]. *)
Definition np_std (a : list R) : R := sqrt (np_var a).

(** The sample standard deviation in the usual sense of the words, with
    Bessel's correction (divisor [n - 1]; [a.std(ddof=1)], Python's
    [statistics.stdev]).  Not used by the source: it is here to be compared
    with [np_std]. *)
Definition sample_std (a : list R) : R :=
  sqrt (np_sum (map (fun x => (x - np_mean a) * (x - np_mean a)) a)
        / (INR (length a) - 1)).

End Numeric.

Import Numeric.

(** ** Python values and the interpreter state *)

Local Open Scope string_scope.
Local Open Scope list_scope.

(** A raised exception: its class and its message. *)
Record exn := Exception { exc_class : string; exc_msg : string }.

(** The items [score_and_time] puts in a row: a float or a
    [datetime.timedelta] (its length in seconds). *)
Inductive cell :=
| Float (x : R)
| Timedelta (seconds : R).

(** The number a cell holds. *)
Definition cell_value (c : cell) : R :=
  match c with Float x => x | Timedelta s => s end.

(** Arguments are passed by reference: a [ref] is the identity of an array
    object, the heap gives its current contents. *)
Definition ref := nat.

Record ndarray := { shape : list nat; items : list R }.

Definition heap := ref -> ndarray.

(** Whether [set(a)] raises [TypeError].  Iterating a one-dimensional array
    yields its scalars.  A zero-dimensional array is not iterable.  The items
    of an array with two or more dimensions are arrays, which are not
    hashable; when the first axis is empty there is no item to hash and the
    result is the empty set. *)
Definition set_raises (arr : ndarray) : bool :=
  match shape arr with
  | [] => true
  | [_] => false
  | O :: _ => false
  | S _ :: _ => true
  end.

(** The members of [set(a)], when it does not raise. *)
Definition set_items (arr : ndarray) : list R :=
  match shape arr with
  | [_] => nodup Req_dec_T (items arr)
  | _ => []
  end.

(** An estimator object as its constructor call leaves it.  Parameters the
    call does not give take the library's default ([None] for [max_depth] of
    a tree and for every [random_state]). *)
Inductive estimator :=
| DecisionTreeClassifier (max_depth : option Z) (random_state : option Z)
| RandomForestClassifier (n_estimators : Z) (max_depth : option Z)
                         (random_state : option Z)
| AdaBoostClassifier (base_estimator : estimator) (n_estimators : Z)
                     (algorithm : string) (random_state : option Z)
| GradientBoostingClassifier (n_estimators : Z) (max_depth : Z)
                             (random_state : option Z)
| XGBClassifier (n_estimators : Z) (max_depth : Z) (random_state : option Z).

(** The seed an estimator was built with, if any.  scikit-learn draws from
    the global NumPy generator when it is [None]. *)
Definition seed_of (m : estimator) : option Z :=
  match m with
  | DecisionTreeClassifier _ s => s
  | RandomForestClassifier _ _ s => s
  | AdaBoostClassifier _ _ _ s => s
  | GradientBoostingClassifier _ _ s => s
  | XGBClassifier _ _ s => s
  end.

(** What [print] receives after the label. *)
Inductive printed :=
| PShape (s : list nat)
| PSet (s : list R).

(** Observable events, in the order they happen. *)
Inductive event :=
| EvPrint (label : string) (v : printed)
| EvProcessTime (t : R)
| EvCrossValScore (model : estimator) (X y : ref) (cv : Z).

(** A pandas table: row labels, column labels, and the rows. *)
Record DataFrame := {
  index : list string;
  columns : list string;
  values : list (list cell)
}.

Section Benchmark.

(** The external collaborators.  [ext] is the state of the libraries and of
    the process (global random generator, CPU time used so far, ...);
    [clock] is what [time.process_time()] reads from it; [cross_val_score]
    is [sklearn.model_selection.cross_val_score], which may raise, may use
    and change the external state, and is handed the arrays by reference, so
    it is given the heap and returns the heap it leaves. *)
Variable ext : Type.
Variable clock : ext -> R.
Variable cross_val_score :
  estimator -> ref -> ref -> Z -> heap * ext -> (exn + list R) * (heap * ext).

Record world := { mem : heap; env : ext; log : list event }.

(** *** The monad: state and exceptions *)

Definition M (A : Type) : Type := world -> (exn + A) * world.

Definition ret {A} (a : A) : M A := fun w => (inr a, w).

Definition raise {A} (e : exn) : M A := fun w => (inl e, w).

Definition bind {A B} (c : M A) (k : A -> M B) : M B :=
  fun w =>
    match c w with
    | (inr a, w') => k a w'
    | (inl e, w') => (inl e, w')
    end.

Notation "x <- c ;; k" := (bind c (fun x => k))
  (at level 61, c at next level, right associativity).
Notation "c ;; k" := (bind c (fun _ => k))
  (at level 61, right associativity).

Definition emit (e : event) : M unit :=
  fun w => (inr tt, {| mem := mem w; env := env w; log := log w ++ [e] |}).

(** *** Primitives the two functions use *)

(** [print(label, v)] *)
Definition print (label : string) (v : printed) : M unit :=
  emit (EvPrint label v).

(** [a.shape] *)
Definition ndarray_shape (a : ref) : M (list nat) :=
  fun w => (inr (shape (mem w a)), w).

(** [set(a)], see [set_raises] and [set_items]. *)
Definition py_set (a : ref) : M (list R) :=
  fun w =>
    let arr := mem w a in
    if set_raises arr
    then (inl (Exception "TypeError" "unhashable or not iterable"), w)
    else (inr (set_items arr), w).

(** [process_time()] *)
Definition process_time : M R :=
  fun w =>
    let t := clock (env w) in
    (inr t, {| mem := mem w; env := env w; log := log w ++ [EvProcessTime t] |}).

(** [model_selection.cross_val_score(model, X, y, cv=cv)] *)
Definition model_selection_cross_val_score
    (model : estimator) (X y : ref) (cv : Z) : M (list R) :=
  fun w =>
    match cross_val_score model X y cv (mem w, env w) with
    | (r, (h, s)) =>
        (r, {| mem := h; env := s;
               log := log w ++ [EvCrossValScore model X y cv] |})
    end.

(** [pd.DataFrame(data, index=index, columns=columns)] on a list of rows.
    pandas raises [ValueError] when the number of rows is not the number of
    row labels or a row is longer than the column labels, and pads a shorter
    row; the model has no cell for padding and raises whenever the rows are
    not [length index] rows of [length columns] cells. *)
Definition pd_DataFrame (data : list (list cell)) (index columns : list string)
  : M DataFrame :=
  if ((length data =? length index)%nat
      && forallb (fun row => (length row =? length columns)%nat) data)%bool
  then ret {| index := index; columns := columns; values := data |}
  else raise (Exception "ValueError" "Shape of passed values").

(** *** [score_and_time] *)

(** The list [part_l] built from the fold scores and the two clock reads. *)
Definition part_l (scores : list R) (t_start t_stop : R) : list cell :=
  [ Float (round (np_mean scores) 3);
    Float (round (np_std scores * 2) 3);
    Timedelta (t_stop - t_start) ].

Definition score_and_time (model : estimator) (X_dataset y_dataset : ref)
    (cv : Z) : M (list cell) :=
  t_start <- process_time ;;
  scores <- model_selection_cross_val_score model X_dataset y_dataset cv ;;
  t_stop <- process_time ;;
  ret (part_l scores t_start t_stop).

(** *** [ml_benchmark] *)

Definition rows_name : list string :=
  [ "DecisionTreeClassifier"; "RandomForestClassifier"; "AdaBoostClassifier";
    "GradientBoostingClassifier"; "XGBoost" ].

Definition columns_name : list string :=
  [ "Approx. mean of scores"; "Approx. variance of scores"; "Processing time" ].

Definition ml_benchmark (X_dataset y_dataset : ref) (cv : Z) : M DataFrame :=
  s <- ndarray_shape X_dataset ;;
  print "The shape of X_dataset is:" (PShape s) ;;
  s <- ndarray_shape y_dataset ;;
  print "The shape of y_dataset is:" (PShape s) ;;
  v <- py_set y_dataset ;;
  print "The set of values of y_dataset is:" (PSet v) ;;
  let l := [] in
  let model := DecisionTreeClassifier None (Some 0%Z) in
  r <- score_and_time model X_dataset y_dataset cv ;;
  let l := l ++ [r] in
  let model := RandomForestClassifier 50 (Some 2%Z) (Some 0%Z) in
  r <- score_and_time model X_dataset y_dataset cv ;;
  let l := l ++ [r] in
  let model :=
    AdaBoostClassifier (DecisionTreeClassifier (Some 2%Z) None) 50 "SAMME"
                       (Some 0%Z) in
  r <- score_and_time model X_dataset y_dataset cv ;;
  let l := l ++ [r] in
  let model := GradientBoostingClassifier 50 2 None in
  r <- score_and_time model X_dataset y_dataset cv ;;
  let l := l ++ [r] in
  let model := XGBClassifier 50 2 (Some 0%Z) in
  r <- score_and_time model X_dataset y_dataset cv ;;
  let l := l ++ [r] in
  out <- pd_DataFrame l rows_name columns_name ;;
  ret out.

(** *** The straight-line code read as a loop *)

(** The five estimators, in the order [ml_benchmark] builds and evaluates
    them. *)
Definition roster : list estimator :=
  [ DecisionTreeClassifier None (Some 0%Z);
    RandomForestClassifier 50 (Some 2%Z) (Some 0%Z);
    AdaBoostClassifier (DecisionTreeClassifier (Some 2%Z) None) 50 "SAMME"
                       (Some 0%Z);
    GradientBoostingClassifier 50 2 None;
    XGBClassifier 50 2 (Some 0%Z) ].

(** Run [f] on each estimator in turn, left to right, each run starting in
    the state the previous one left; the first exception ends the loop. *)
Fixpoint for_each (f : estimator -> M (list cell)) (ms : list estimator)
  : M (list (list cell)) :=
  match ms with
  | [] => ret []
  | m :: ms' => r <- f m ;; rs <- for_each f ms' ;; ret (r :: rs)
  end.

(** The three [print] calls that open [ml_benchmark]. *)
Definition report (X_dataset y_dataset : ref) : M unit :=
  s <- ndarray_shape X_dataset ;;
  print "The shape of X_dataset is:" (PShape s) ;;
  s <- ndarray_shape y_dataset ;;
  print "The shape of y_dataset is:" (PShape s) ;;
  v <- py_set y_dataset ;;
  print "The set of values of y_dataset is:" (PSet v).

(** The state after the three [print] calls, when [set(y_dataset)] did not
    raise. *)
Definition reported (X_dataset y_dataset : ref) (w : world) : world :=
  {| mem := mem w; env := env w;
     log := log w ++
       [ EvPrint "The shape of X_dataset is:" (PShape (shape (mem w X_dataset)));
         EvPrint "The shape of y_dataset is:" (PShape (shape (mem w y_dataset)));
         EvPrint "The set of values of y_dataset is:"
                 (PSet (set_items (mem w y_dataset))) ] |}.

(** What one successful evaluation observes: the fold scores the
    cross-validator returned and the clock before and after the call. *)
Record observation := {
  obs_scores : list R;
  obs_start : R;
  obs_stop : R
}.

Definition row_of (o : observation) : list cell :=
  part_l (obs_scores o) (obs_start o) (obs_stop o).

(** The events one successful evaluation of [model] adds to the log. *)
Definition events_of (X y : ref) (cv : Z) (model : estimator) (o : observation)
  : list event :=
  [ EvProcessTime (obs_start o); EvCrossValScore model X y cv;
    EvProcessTime (obs_stop o) ].

(** [evaluations X y cv ms w os w']: starting in [w], the cross-validation of
    every estimator of [ms], one after the other, returns; [os] are the
    observations and [w'] is the final state. *)
Inductive evaluations (X y : ref) (cv : Z)
  : list estimator -> world -> list observation -> world -> Prop :=
| evaluations_nil w : evaluations X y cv [] w [] w
| evaluations_cons m ms w scores h s os w' :
    cross_val_score m X y cv (mem w, env w) = (inr scores, (h, s)) ->
    evaluations X y cv ms
      {| mem := h; env := s;
         log := log w ++ [ EvProcessTime (clock (env w));
                           EvCrossValScore m X y cv;
                           EvProcessTime (clock s) ] |}
      os w' ->
    evaluations X y cv (m :: ms) w
      ({| obs_scores := scores; obs_start := clock (env w);
          obs_stop := clock s |} :: os) w'.

End Benchmark.

Arguments ret {ext A} a w.
Arguments raise {ext A} e w.
Arguments bind {ext A B} c k w.
Arguments mem {ext} w.
Arguments env {ext} w.
Arguments log {ext} w.
Arguments reported {ext} X_dataset y_dataset w.
Arguments emit {ext} e w.
Arguments print {ext} label v w.
Arguments ndarray_shape {ext} a w.
Arguments py_set {ext} a w.
Arguments process_time {ext} clock w.
Arguments model_selection_cross_val_score {ext} cross_val_score model X y cv w.
Arguments pd_DataFrame {ext} data index columns w.
Arguments score_and_time {ext} clock cross_val_score model X_dataset y_dataset cv w.
Arguments ml_benchmark {ext} clock cross_val_score X_dataset y_dataset cv w.
Arguments for_each {ext} f ms w.
Arguments report {ext} X_dataset y_dataset w.
Arguments evaluations {ext} clock cross_val_score X y cv _ _ _ _.

(** The table [ml_benchmark] builds from the five observations of a run. *)
Definition bench_table (os : list observation) : DataFrame :=
  {| index := rows_name; columns := columns_name; values := map row_of os |}.

(** The fold scores behind row [i] of such a table. *)
Definition scores_at (os : list observation) (i : nat) : list R :=
  obs_scores (nth i os {| obs_scores := []; obs_start := 0; obs_stop := 0 |}).

(** ** The aggregation cell: [df_benchmark_total] *)

(** [a + b] on two items of a table: floats add, durations add, a float and
    a duration do not ([TypeError] in Python). *)
Definition cell_add (a b : cell) : option cell :=
  match a, b with
  | Float x, Float y => Some (Float (x + y))
  | Timedelta s, Timedelta t => Some (Timedelta (s + t))
  | _, _ => None
  end.

(** [a / k] for a number [k]. *)
Definition cell_div (k : R) (a : cell) : cell :=
  match a with
  | Float x => Float (x / k)
  | Timedelta s => Timedelta (s / k)
  end.

Fixpoint labels_eqb (a b : list string) : bool :=
  match a, b with
  | [], [] => true
  | x :: a', y :: b' => String.eqb x y && labels_eqb a' b'
  | _, _ => false
  end.

(** Item by item [f] on two lists of the same length. *)
Fixpoint zip_with {A} (f : A -> A -> option A) (l1 l2 : list A)
  : option (list A) :=
  match l1, l2 with
  | [], [] => Some []
  | a :: l1', b :: l2' =>
      match f a b, zip_with f l1' l2' with
      | Some c, Some r => Some (c :: r)
      | _, _ => None
      end
  | _, _ => None
  end.

(** [a + b] on two tables that carry the same row labels and the same column
    labels, in the same order: the sum is taken cell by cell.  [None] stands
    for everything else: pandas aligns tables whose labels differ on the
    union of the labels and fills with NaN, and raises when two cells do not
    add; neither happens with tables of [ml_benchmark]. *)
Definition df_add (a b : DataFrame) : option DataFrame :=
  if labels_eqb (index a) (index b) && labels_eqb (columns a) (columns b)
  then match zip_with (zip_with cell_add) (values a) (values b) with
       | Some v => Some {| index := index a; columns := columns a; values := v |}
       | None => None
       end
  else None.

(** [df.divide(other)] for a number [other]. *)
Definition divide (df : DataFrame) (other : R) : DataFrame :=
  {| index := index df; columns := columns df;
     values := map (map (cell_div other)) (values df) |}.

(** The two assignments of the notebook:
    [(df_benchmark_1+df_benchmark_2+df_benchmark_3+df_benchmark_4)], then
    [.divide(4)]. *)
Definition df_benchmark_total (df_benchmark_1 df_benchmark_2 df_benchmark_3
                               df_benchmark_4 : DataFrame)
  : option DataFrame :=
  match df_add df_benchmark_1 df_benchmark_2 with
  | Some s12 =>
      match df_add s12 df_benchmark_3 with
      | Some s123 =>
          match df_add s123 df_benchmark_4 with
          | Some total => Some (divide total 4)
          | None => None
          end
      | None => None
      end
  | None => None
  end.

(** The same computation for any number of tables: the sum from left to
    right, divided by the number of tables. *)
Definition df_sum (first : DataFrame) (others : list DataFrame)
  : option DataFrame :=
  fold_left (fun acc d => match acc with
                          | Some a => df_add a d
                          | None => None
                          end)
            others (Some first).

Definition df_average (dfs : list DataFrame) : option DataFrame :=
  match dfs with
  | [] => None
  | first :: others =>
      match df_sum first others with
      | Some total => Some (divide total (INR (length dfs)))
      | None => None
      end
  end.

(** The number in row [i], column [j] of a table. *)
Definition value_at (df : DataFrame) (i j : nat) : R :=
  cell_value (nth j (nth i (values df) []) (Float 0)).

(** A table of the shape [ml_benchmark] returns: the five row labels, the
    three column labels, and in every row two floats and a duration. *)
Definition benchmark_row (r : list cell) : Prop :=
  exists mean_score score_spread duration,
    r = [Float mean_score; Float score_spread; Timedelta duration].

Definition benchmark_table (df : DataFrame) : Prop :=
  index df = rows_name /\ columns df = columns_name /\
  length (values df) = 5%nat /\ Forall benchmark_row (values df).

(** ** The cells after the benchmarks: [sort_values], [perc_inc],
       [best_preds] *)

(** [labels.get_loc(label)]: the position of a label, if it is there. *)
Fixpoint get_loc (label : string) (labels : list string) : option nat :=
  match labels with
  | [] => None
  | l :: labels' =>
      if String.eqb label l then Some 0%nat
      else option_map S (get_loc label labels')
  end.

(** The number a row holds in column [j]. *)
Definition key_at (j : nat) (row : list cell) : R :=
  cell_value (nth j row (Float 0)).

(** Whether a row with key [kx] is placed before a row with key [kr] that
    came after it in the table. *)
Definition goes_before (ascending : bool) (kx kr : R) : bool :=
  if ascending
  then (if Rle_dec kx kr then true else false)
  else (if Rle_dec kr kx then true else false).

(** The order [sort_values] puts the keys in. *)
Definition key_order (ascending : bool) : R -> R -> Prop :=
  if ascending then Rle else Rge.

Fixpoint insert_row (ascending : bool) (j : nat) (x : string * list cell)
    (rows : list (string * list cell)) : list (string * list cell) :=
  match rows with
  | [] => [x]
  | r :: rows' =>
      if goes_before ascending (key_at j (snd x)) (key_at j (snd r))
      then x :: r :: rows'
      else r :: insert_row ascending j x rows'
  end.

(** [df.sort_values(by=[by], ascending=ascending)]: the rows, each with its
    label, in the order of the numbers in column [by_]; pandas raises
    [KeyError] when there is no such column.  Rows with the same number stay
    in the order they had, as NumPy's sort leaves them on an array this
    short. *)
Definition sort_values (df : DataFrame) (by_ : string) (ascending : bool)
  : exn + DataFrame :=
  match get_loc by_ (columns df) with
  | None => inl (Exception "KeyError" by_)
  | Some j =>
      let rows := fold_right (insert_row ascending j) []
                             (combine (index df) (values df)) in
      inr {| index := map fst rows; columns := columns df;
             values := map snd rows |}
  end.

(** The two cells that print the percentage increase:
    [scores = df_sorted['Approx. mean of scores']], then
    [round((scores[0]-scores[4])/(scores[4])*100, 2)].  An integer key on a
    column whose labels are strings is a position.  When [scores[4]] is zero
    NumPy yields [inf] or [nan], which the reals do not have: the value of
    the model is meaningful for a non-zero [scores[4]] only. *)
Definition perc_inc (df_sorted : DataFrame) : exn + R :=
  match get_loc "Approx. mean of scores" (columns df_sorted) with
  | None => inl (Exception "KeyError" "Approx. mean of scores")
  | Some j =>
      let scores := map (key_at j) (values df_sorted) in
      match nth_error scores 0, nth_error scores 4 with
      | Some s0, Some s4 => inr (round ((s0 - s4) / s4 * 100) 2)
      | _, _ => inl (Exception "IndexError" "index out of bounds")
      end
  end.

(** [np.argmax(line)] on a one-dimensional array: the position of the first
    largest item; [ValueError] on an empty array. *)
Fixpoint argmax_from (best_i : nat) (best : R) (i : nat) (line : list R) : nat :=
  match line with
  | [] => best_i
  | x :: line' =>
      if Rlt_dec best x then argmax_from i x (S i) line'
      else argmax_from best_i best (S i) line'
  end.

Definition np_argmax (line : list R) : exn + nat :=
  match line with
  | [] => inl (Exception "ValueError"
                         "attempt to get argmax of an empty sequence")
  | x :: line' => inr (argmax_from 0 x 1 line')
  end.

(** [np.asarray([np.argmax(line) for line in preds])] *)
Fixpoint best_preds (preds : list (list R)) : exn + list nat :=
  match preds with
  | [] => inr []
  | line :: preds' =>
      match np_argmax line with
      | inl e => inl e
      | inr k =>
          match best_preds preds' with
          | inl e => inl e
          | inr ks => inr (k :: ks)
          end
      end
  end.

(** ** A small stand-in for the external libraries

    Used to run the two functions on concrete inputs.  Its state is the CPU
    time used so far and the number of draws made from the global random
    generator.  Like scikit-learn it refuses fewer than two folds, leaves the
    arrays alone, and gives an estimator built with a seed the same scores on
    every call; an estimator built without one draws from the global
    generator, and its scores follow the draw.  The scores are made up: they
    are not what scikit-learn computes on these arrays.  The stand-in only
    shows that the hypotheses of the theorems can be met together. *)

Module Toy.

Definition ext : Type := (R * nat)%type.

Definition clock (s : ext) : R := fst s.

Definition cross_val_score (model : estimator) (X y : ref) (cv : Z)
    (hs : heap * ext) : (exn + list R) * (heap * ext) :=
  let h := fst hs in
  let t := fst (snd hs) in
  let g := snd (snd hs) in
  if (cv <? 2)%Z
  then (inl (Exception "ValueError" "n_splits must be at least 2"), (h, (t, g)))
  else match seed_of model with
       | Some _ => (inr (repeat 1 (Z.to_nat cv)), (h, (t + 1, g)))
       | None =>
           (inr ((if Nat.even g then 1 else 0) :: repeat 1 (Z.to_nat cv - 1)),
            (h, (t + 1, S g)))
       end.

(** Four samples with one feature, two classes. *)
Definition X_dataset : ref := 0%nat.
Definition y_dataset : ref := 1%nat.

Definition memory : heap :=
  fun r =>
    if (r =? X_dataset)%nat
    then {| shape := [4%nat; 1%nat]; items := [0; 0; 1; 1] |}
    else {| shape := [4%nat]; items := [0; 0; 1; 1] |}.

Definition start : world ext := {| mem := memory; env := (0, 0%nat); log := [] |}.

(** A table in which every classifier has the mean score [score]. *)
Definition table_scoring (score : R) : DataFrame :=
  {| index := rows_name; columns := columns_name;
     values := repeat [Float score; Float 0; Timedelta 0] 5 |}.

(** Five evaluations that all saw the two fold scores [a] and [b]. *)
Definition observed (a b : R) : list observation :=
  repeat {| obs_scores := [a; b]; obs_start := 0; obs_stop := 0 |} 5.

(** A state in which one draw has already been made. *)
Definition one_draw : world ext :=
  {| mem := memory; env := (0, 1%nat); log := [] |}.

(** What the five evaluations of a run with two folds from [start]
    observe: the fold scores 1 and 1 each time, one unit of CPU time per
    evaluation. *)
Definition first_observations : list observation :=
  [ {| obs_scores := [1; 1]; obs_start := 0; obs_stop := 0 + 1 |};
    {| obs_scores := [1; 1]; obs_start := 0 + 1; obs_stop := 0 + 1 + 1 |};
    {| obs_scores := [1; 1]; obs_start := 0 + 1 + 1;
       obs_stop := 0 + 1 + 1 + 1 |};
    {| obs_scores := [1; 1]; obs_start := 0 + 1 + 1 + 1;
       obs_stop := 0 + 1 + 1 + 1 + 1 |};
    {| obs_scores := [1; 1]; obs_start := 0 + 1 + 1 + 1 + 1;
       obs_stop := 0 + 1 + 1 + 1 + 1 + 1 |} ].

(** The state a first run of [ml_benchmark] with two folds leaves. *)
Definition after_first_run : world ext :=
  snd (ml_benchmark clock cross_val_score X_dataset y_dataset 2 start).

End Toy.

(** ** Sample inputs for the cells after the benchmarks *)

Module Sample.

(** A benchmark table with five different mean scores. *)
Definition table : DataFrame :=
  {| index := rows_name; columns := columns_name;
     values := [ [Float (95 / 100); Float 0; Timedelta 0];
                 [Float (93 / 100); Float 0; Timedelta 0];
                 [Float (94 / 100); Float 0; Timedelta 0];
                 [Float (96 / 100); Float 0; Timedelta 0];
                 [Float (97 / 100); Float 0; Timedelta 0] ] |}.

(** The same table sorted by decreasing mean score. *)
Definition sorted : DataFrame :=
  match sort_values table "Approx. mean of scores" false with
  | inr s => s
  | inl _ => table
  end.

(** Class probabilities of two samples, three classes. *)
Definition preds : list (list R) :=
  [ [1 / 10; 7 / 10; 2 / 10]; [8 / 10; 1 / 10; 1 / 10] ].

End Sample.

(** * Facts *)

(** ** The numeric layer *)

Lemma rint_error (x : R) : x - 1 / 2 <= IZR (rint x) <= x + 1 / 2.
Proof.
  unfold rint.
  destruct (base_Int_part x) as [Hlo Hhi].
  set (n := Int_part x) in *.
  destruct (Rlt_dec (x - IZR n) (1 / 2)) as [Hlt | Hge].
  - lra.
  - destruct (Rlt_dec (1 / 2) (x - IZR n)) as [Hgt | Hle].
    + rewrite plus_IZR. lra.
    + destruct (Z.even n); [lra | rewrite plus_IZR; lra].
Qed.

Lemma rint_nearest (x : R) (z : Z) :
  IZR z - 1 / 2 < x < IZR z + 1 / 2 -> rint x = z.
Proof.
  intros [Hlo Hhi].
  destruct (rint_error x) as [H1 H2].
  assert (Hlt : (z - 1 < rint x < z + 1)%Z).
  { split; apply lt_IZR; [rewrite minus_IZR | rewrite plus_IZR]; lra. }
  lia.
Qed.

Lemma rint_IZR (z : Z) : rint (IZR z) = z.
Proof. apply rint_nearest. lra. Qed.

Lemma rint_ge (x : R) (z : Z) : IZR z <= x -> (z <= rint x)%Z.
Proof.
  intros H. destruct (rint_error x) as [H1 _].
  assert (Hlt : (z - 1 < rint x)%Z).
  { apply lt_IZR. rewrite minus_IZR. lra. }
  lia.
Qed.

Lemma rint_le (x : R) (z : Z) : x <= IZR z -> (rint x <= z)%Z.
Proof.
  intros H. destruct (rint_error x) as [_ H2].
  assert (Hlt : (rint x < z + 1)%Z).
  { apply lt_IZR. rewrite plus_IZR. lra. }
  lia.
Qed.

Lemma pow10_pos (d : nat) : 0 < 10 ^ d.
Proof. apply pow_lt. lra. Qed.

Lemma round_ge_0 (x : R) (d : nat) : 0 <= x -> 0 <= round x d.
Proof.
  intros Hx. unfold round.
  pose proof (pow10_pos d) as Hp.
  apply Rmult_le_pos.
  - apply IZR_le. apply rint_ge. apply Rmult_le_pos; lra.
  - left. apply Rinv_0_lt_compat. exact Hp.
Qed.

Lemma round_le_1 (x : R) (d : nat) : x <= 1 -> round x d <= 1.
Proof.
  intros Hx. unfold round.
  pose proof (pow10_pos d) as Hp.
  apply Rmult_le_reg_r with (r := 10 ^ d); [exact Hp |].
  unfold Rdiv. rewrite Rmult_assoc, Rinv_l, Rmult_1_r, Rmult_1_l by lra.
  rewrite (pow_IZR 10 d) in *. apply IZR_le. apply rint_le. nra.
Qed.

Lemma np_sum_range (a : list R) :
  Forall (fun x => 0 <= x <= 1) a -> 0 <= np_sum a <= INR (length a).
Proof.
  induction 1 as [| x a Hx _ IH].
  - cbn. lra.
  - change (np_sum (x :: a)) with (x + np_sum a).
    change (length (x :: a)) with (S (length a)). rewrite S_INR. lra.
Qed.

Lemma np_mean_range (a : list R) :
  a <> [] -> Forall (fun x => 0 <= x <= 1) a -> 0 <= np_mean a <= 1.
Proof.
  intros Hne Hall. unfold np_mean.
  assert (Hn : 0 < INR (length a)).
  { apply lt_0_INR. destruct a; [congruence | cbn; lia]. }
  destruct (np_sum_range a Hall) as [Hlo Hhi].
  split.
  - apply Rmult_le_pos; [exact Hlo | left; apply Rinv_0_lt_compat; exact Hn].
  - apply Rmult_le_reg_r with (r := INR (length a)); [exact Hn |].
    unfold Rdiv. rewrite Rmult_assoc, Rinv_l, Rmult_1_r, Rmult_1_l by lra.
    exact Hhi.
Qed.

Lemma np_std_nonneg (a : list R) : 0 <= np_std a.
Proof. unfold np_std. apply sqrt_pos. Qed.

(** [np_std] written out: the square root of the sum of the squared
    deviations over the number of items. *)
Lemma np_std_unfold (a : list R) :
  np_std a =
  sqrt (np_sum (map (fun x => (x - np_mean a) * (x - np_mean a)) a)
        / INR (length a)).
Proof. unfold np_std, np_var, np_mean at 1. rewrite length_map. reflexivity. Qed.

(** A number with at most [d] decimal digits is left as it is. *)
Lemma round_decimal (z : Z) (d : nat) (x : R) :
  x * 10 ^ d = IZR z -> round x d = x.
Proof.
  intros Hx. unfold round. rewrite Hx, rint_IZR, <- Hx.
  pose proof (pow10_pos d). field. lra.
Qed.

Lemma round_nearest (z : Z) (d : nat) (x : R) :
  IZR z - 1 / 2 < x * 10 ^ d < IZR z + 1 / 2 -> round x d = IZR z / 10 ^ d.
Proof. intros Hx. unfold round. rewrite (rint_nearest _ z Hx). reflexivity. Qed.

Lemma np_mean_pair (a b : R) : np_mean [a; b] = (a + b) / 2.
Proof. unfold np_mean, np_sum. cbn. field. Qed.

Lemma np_std_pair (a b : R) : a <= b -> np_std [a; b] = (b - a) / 2.
Proof.
  intros Hab. unfold np_std, np_var. rewrite !np_mean_pair.
  cbn [map]. rewrite np_mean_pair.
  replace ((_ + _) / 2) with (((b - a) / 2) * ((b - a) / 2)) by field.
  apply sqrt_square. lra.
Qed.

Lemma sample_std_pair (a b : R) :
  sample_std [a; b] = sqrt ((b - a) * (b - a) / 2).
Proof.
  unfold sample_std. rewrite !np_mean_pair. unfold np_sum. cbn.
  f_equal. field.
Qed.

(** Two fold scores, 0 and 1: twice the standard deviation is 1 with the
    divisor [n] and 1.414 with the divisor [n - 1]. *)
Lemma spread_of_0_and_1 : round (np_std [0; 1] * 2) 3 = 1.
Proof.
  rewrite np_std_pair by lra. replace ((1 - 0) / 2 * 2) with 1 by lra.
  apply (round_decimal 1000). cbn. lra.
Qed.

Lemma sample_spread_of_0_and_1 : round (sample_std [0; 1] * 2) 3 = 1414 / 1000.
Proof.
  rewrite sample_std_pair.
  replace ((1 - 0) * (1 - 0) / 2) with (1 / 2) by lra.
  assert (Hsq : sqrt (1 / 2) * sqrt (1 / 2) = 1 / 2) by (apply sqrt_sqrt; lra).
  pose proof (sqrt_pos (1 / 2)) as Hpos.
  rewrite (round_nearest 1414); [cbn; lra |].
  cbn. split; nra.
Qed.

(** ** The aggregation *)

Lemma labels_eqb_refl (a : list string) : labels_eqb a a = true.
Proof.
  induction a as [| x a IH]; cbn; [reflexivity |].
  rewrite String.eqb_refl, IH. reflexivity.
Qed.

(** A table of [ml_benchmark], taken apart into its fifteen numbers. *)
Lemma benchmark_table_inv (df : DataFrame) :
  benchmark_table df ->
  exists a0 a1 a2 b0 b1 b2 c0 c1 c2 d0 d1 d2 e0 e1 e2,
    df = {| index := rows_name; columns := columns_name;
            values := [ [Float a0; Float a1; Timedelta a2];
                        [Float b0; Float b1; Timedelta b2];
                        [Float c0; Float c1; Timedelta c2];
                        [Float d0; Float d1; Timedelta d2];
                        [Float e0; Float e1; Timedelta e2] ] |}.
Proof.
  destruct df as [i c v]. unfold benchmark_table. cbn.
  intros (-> & -> & Hlen & Hrows).
  do 5 (destruct v as [| ? v]; [discriminate |]).
  destruct v; [| discriminate].
  repeat match goal with
         | H : Forall _ (_ :: _) |- _ => inversion H; clear H; subst
         | H : benchmark_row _ |- _ => destruct H as (? & ? & ? & ->)
         end.
  do 15 eexists. reflexivity.
Qed.

Ltac each_cell i j :=
  destruct i as [| [| [| [| [| i]]]]]; try destruct i;
  destruct j as [| [| [| j]]]; try destruct j; cbn; lra.

(** The sum of two tables of [ml_benchmark] is taken cell by cell and is
    again such a table. *)
Lemma df_add_benchmark (a b : DataFrame) :
  benchmark_table a -> benchmark_table b ->
  exists c, df_add a b = Some c /\ benchmark_table c /\
            forall i j, value_at c i j = value_at a i j + value_at b i j.
Proof.
  intros Ha Hb.
  destruct (benchmark_table_inv a Ha)
    as (a0 & a1 & a2 & b0 & b1 & b2 & c0 & c1 & c2 & d0 & d1 & d2
        & e0 & e1 & e2 & ->).
  destruct (benchmark_table_inv b Hb)
    as (a0' & a1' & a2' & b0' & b1' & b2' & c0' & c1' & c2' & d0' & d1' & d2'
        & e0' & e1' & e2' & ->).
  eexists. split; [reflexivity |]. split.
  - unfold benchmark_table. cbn. repeat split.
    repeat constructor; unfold benchmark_row; eauto.
  - intros i j. unfold value_at. each_cell i j.
Qed.

Lemma df_sum_benchmark (others : list DataFrame) :
  forall first,
    benchmark_table first -> Forall benchmark_table others ->
    exists total, df_sum first others = Some total /\ benchmark_table total /\
      forall i j, value_at total i j =
                  value_at first i j
                  + np_sum (map (fun d => value_at d i j) others).
Proof.
  induction others as [| d others IH]; intros first Hfirst Hothers.
  - exists first. split; [reflexivity | split; [assumption |]].
    intros i j. cbn. lra.
  - inversion Hothers as [| ? ? Hd Hrest]; subst.
    destruct (df_add_benchmark first d Hfirst Hd) as (s & Hadd & Hs & Hval).
    destruct (IH s Hs Hrest) as (total & Hsum & Htotal & Hcells).
    exists total. unfold df_sum in *. cbn. rewrite Hadd.
    split; [exact Hsum | split; [exact Htotal |]].
    intros i j. rewrite Hcells, Hval. unfold np_sum. cbn [map fold_right]. lra.
Qed.

Lemma nth_cell_div (k : R) (row : list cell) :
  forall j, cell_value (nth j (map (cell_div k) row) (Float 0))
            = cell_value (nth j row (Float 0)) / k.
Proof.
  induction row as [| c row IH]; intros [| j]; cbn;
    try (unfold Rdiv; ring).
  - destruct c; reflexivity.
  - apply IH.
Qed.

Lemma value_at_divide (df : DataFrame) (k : R) (i j : nat) :
  value_at (divide df k) i j = value_at df i j / k.
Proof.
  unfold value_at, divide. cbn.
  change (@nil cell) with (map (cell_div k) []) at 1.
  rewrite map_nth. apply nth_cell_div.
Qed.

(** The notebook's expression is the average of its four tables. *)
Lemma df_benchmark_total_average (df1 df2 df3 df4 : DataFrame) :
  df_benchmark_total df1 df2 df3 df4 = df_average [df1; df2; df3; df4].
Proof.
  unfold df_benchmark_total, df_average, df_sum. cbn [fold_left length].
  replace (INR 4) with 4 by (cbn; lra).
  destruct (df_add df1 df2) as [s12 |]; [| reflexivity].
  destruct (df_add s12 df3) as [s123 |]; reflexivity.
Qed.


(** The first two cells of a row of [bench_table] are the rounded mean and
    the rounded spread of the fold scores behind the row. *)
Lemma value_at_bench_table (os : list observation) (i : nat) :
  (i < length os)%nat ->
  value_at (bench_table os) i 0 = round (np_mean (scores_at os i)) 3
  /\ value_at (bench_table os) i 1 = round (np_std (scores_at os i) * 2) 3.
Proof.
  intros Hi. unfold value_at, bench_table, scores_at. cbn [values].
  rewrite (nth_indep (map row_of os) []
             (row_of {| obs_scores := []; obs_start := 0; obs_stop := 0 |}))
    by (rewrite length_map; exact Hi).
  rewrite map_nth. split; reflexivity.
Qed.

(** ** The two functions, call by call *)

Section Facts.

Variable ext : Type.
Variable clock : ext -> R.
Variable cross_val_score :
  estimator -> ref -> ref -> Z -> heap * ext -> (exn + list R) * (heap * ext).

Implicit Types (w : world ext) (m : estimator) (X y : ref) (cv : Z).

(** When the cross-validator returns, so does [score_and_time]. *)
Lemma score_and_time_returns m X y cv w scores h s :
  cross_val_score m X y cv (mem w, env w) = (inr scores, (h, s)) ->
  score_and_time clock cross_val_score m X y cv w =
    (inr (part_l scores (clock (env w)) (clock s)),
     {| mem := h; env := s;
        log := log w ++ [ EvProcessTime (clock (env w));
                          EvCrossValScore m X y cv;
                          EvProcessTime (clock s) ] |}).
Proof.
  intros Hcall.
  unfold score_and_time, bind, process_time, model_selection_cross_val_score.
  cbn. rewrite Hcall. cbn. rewrite <- !app_assoc. reflexivity.
Qed.

(** When the cross-validator raises, [score_and_time] raises the same
    exception, right after the call. *)
Lemma score_and_time_raises m X y cv w e h s :
  cross_val_score m X y cv (mem w, env w) = (inl e, (h, s)) ->
  score_and_time clock cross_val_score m X y cv w =
    (inl e,
     {| mem := h; env := s;
        log := log w ++ [ EvProcessTime (clock (env w));
                          EvCrossValScore m X y cv ] |}).
Proof.
  intros Hcall.
  unfold score_and_time, bind, process_time, model_selection_cross_val_score.
  cbn. rewrite Hcall. cbn. rewrite <- !app_assoc. reflexivity.
Qed.

Lemma set_raises_vector (arr : ndarray) :
  length (shape arr) = 1%nat -> set_raises arr = false.
Proof.
  unfold set_raises. destruct (shape arr) as [| n [| n' sh]]; cbn;
    intros Hdim; try discriminate. destruct n; reflexivity.
Qed.

Lemma set_raises_dim (arr : ndarray) :
  set_raises arr = true -> length (shape arr) <> 1%nat.
Proof.
  intros Hraise Hdim. rewrite (set_raises_vector arr Hdim) in Hraise.
  discriminate.
Qed.

(** [report] either prints three lines or raises at [set(y_dataset)], after
    two lines. *)
Lemma report_returns_when X y w :
  set_raises (mem w y) = false ->
  report X y w = (inr tt, reported X y w).
Proof.
  intros Hset. unfold report, bind, ndarray_shape, print, emit, py_set.
  cbn. rewrite Hset. cbn. unfold reported. rewrite <- !app_assoc. reflexivity.
Qed.

Lemma report_returns X y w :
  length (shape (mem w y)) = 1%nat ->
  report X y w = (inr tt, reported X y w).
Proof.
  intros Hdim. apply report_returns_when. apply set_raises_vector. exact Hdim.
Qed.

(** [ml_benchmark] is the loop over [roster] between the [print] calls and
    the construction of the table. *)
Lemma ml_benchmark_loop X y cv w :
  ml_benchmark clock cross_val_score X y cv w =
    bind (report X y)
      (fun _ => bind (for_each (fun model => score_and_time clock cross_val_score model X y cv) roster)
         (fun l => pd_DataFrame l rows_name columns_name)) w.
Proof.
  unfold ml_benchmark, report, roster, for_each, bind, ret.
  repeat match goal with
         | |- context [match ?c ?w with _ => _ end] =>
             lazymatch c with
             | score_and_time _ _ _ _ _ _ => destruct (c w) as [[?|?] ?]
             | ndarray_shape _ => destruct (c w) as [[?|?] ?]
             | print _ _ => destruct (c w) as [[?|?] ?]
             | py_set _ => destruct (c w) as [[?|?] ?]
             end
         end; try reflexivity.
  cbn [app]. destruct (pd_DataFrame _ _ _ _) as [[?|?] ?]; reflexivity.
Qed.

Local Abbreviation evaluate X y cv :=
  (fun model => score_and_time clock cross_val_score model X y cv).
Local Abbreviation evaluations := (evaluations clock cross_val_score).

Lemma report_raises X y w :
  set_raises (mem w y) = true ->
  exists e w', report X y w = (inl e, w') /\ mem w' = mem w.
Proof.
  intros Hset. unfold report, bind, ndarray_shape, print, emit, py_set.
  cbn. rewrite Hset. cbn.
  eexists. eexists. split; reflexivity.
Qed.

(** *** The loop *)

Lemma for_each_returns X y cv ms w os w' :
  evaluations X y cv ms w os w' ->
  for_each (evaluate X y cv) ms w = (inr (map row_of os), w').
Proof.
  induction 1 as [w | m ms w scores h s os w' Hcall _ IH]; cbn.
  - reflexivity.
  - unfold bind. rewrite (score_and_time_returns _ _ _ _ _ _ _ _ Hcall).
    rewrite IH. reflexivity.
Qed.

Lemma for_each_returned X y cv ms :
  forall w rows w',
    for_each (evaluate X y cv) ms w = (inr rows, w') ->
    exists os, evaluations X y cv ms w os w' /\ rows = map row_of os.
Proof.
  induction ms as [| m ms IH]; cbn; intros w rows w' Hrun.
  - inversion Hrun; subst. exists []. split; [constructor | reflexivity].
  - unfold bind in Hrun.
    destruct (cross_val_score m X y cv (mem w, env w)) as [[e | scores] [h s]]
      eqn:Hcall.
    + rewrite (score_and_time_raises _ _ _ _ _ _ _ _ Hcall) in Hrun.
      discriminate.
    + rewrite (score_and_time_returns _ _ _ _ _ _ _ _ Hcall) in Hrun.
      match type of Hrun with
      | context [for_each _ ms ?w1] =>
          destruct (for_each (evaluate X y cv) ms w1) as [[e | rs] w2] eqn:Hrest
      end; [discriminate |].
      cbn in Hrun. inversion Hrun; subst.
      destruct (IH _ _ _ Hrest) as (os & Hev & ->).
      eexists. split; [econstructor; eassumption | reflexivity].
Qed.

(** The first exception ends the loop: the state is the one the failing
    call left. *)
Lemma for_each_raises X y cv pre m post :
  forall w os w1 e w2,
    evaluations X y cv pre w os w1 ->
    score_and_time clock cross_val_score m X y cv w1 = (inl e, w2) ->
    for_each (evaluate X y cv) (pre ++ m :: post) w = (inl e, w2).
Proof.
  intros w os w1 e w2 Hev. revert e w2.
  induction Hev as [w | m0 ms w scores h s os w' Hcall _ IH]; intros e w2 Hfail.
  - cbn. unfold bind. rewrite Hfail. reflexivity.
  - cbn. unfold bind. rewrite (score_and_time_returns _ _ _ _ _ _ _ _ Hcall).
    rewrite (IH _ _ Hfail). reflexivity.
Qed.

Lemma evaluations_length X y cv ms w os w' :
  evaluations X y cv ms w os w' -> length os = length ms.
Proof. induction 1; cbn; congruence. Qed.

(** The log of a run of the loop: for each estimator in turn, a clock read,
    the call, a clock read. *)
Lemma evaluations_log X y cv ms w os w' :
  evaluations X y cv ms w os w' ->
  log w' = log w ++
    flat_map (fun mo => events_of X y cv (fst mo) (snd mo)) (combine ms os).
Proof.
  induction 1 as [w | m ms w scores h s os w' Hcall _ IH]; cbn.
  - rewrite app_nil_r. reflexivity.
  - rewrite IH. cbn. rewrite <- app_assoc. reflexivity.
Qed.

(** *** The table *)

Lemma row_of_benchmark_row (o : observation) : benchmark_row (row_of o).
Proof. unfold benchmark_row, row_of, part_l. eauto. Qed.

Lemma bench_table_benchmark_table (os : list observation) :
  length os = 5%nat -> benchmark_table (bench_table os).
Proof.
  intros Hlen. unfold benchmark_table, bench_table. cbn.
  rewrite length_map. repeat split; try assumption.
  apply Forall_forall. intros r Hin. apply in_map_iff in Hin.
  destruct Hin as (o & <- & _). apply row_of_benchmark_row.
Qed.

Lemma pd_DataFrame_rows (os : list observation) w :
  length os = 5%nat ->
  pd_DataFrame (map row_of os) rows_name columns_name w =
    (inr (bench_table os), w).
Proof.
  intros Hlen. unfold pd_DataFrame.
  rewrite length_map, Hlen.
  replace (forallb _ (map row_of os)) with true; [reflexivity |].
  symmetry. apply forallb_forall. intros r Hin. apply in_map_iff in Hin.
  destruct Hin as (o & <- & _). reflexivity.
Qed.

(** *** [ml_benchmark] returns exactly when the five evaluations do *)

Lemma ml_benchmark_returns X y cv w os w' :
  length (shape (mem w y)) = 1%nat ->
  evaluations X y cv roster (reported X y w) os w' ->
  ml_benchmark clock cross_val_score X y cv w = (inr (bench_table os), w').
Proof.
  intros Hdim Hev. rewrite ml_benchmark_loop. unfold bind.
  rewrite (report_returns _ _ _ Hdim), (for_each_returns _ _ _ _ _ _ _ Hev).
  apply pd_DataFrame_rows.
  rewrite (evaluations_length _ _ _ _ _ _ _ Hev). reflexivity.
Qed.

Lemma ml_benchmark_returned X y cv w df w' :
  ml_benchmark clock cross_val_score X y cv w = (inr df, w') ->
  set_raises (mem w y) = false /\
  exists os, evaluations X y cv roster (reported X y w) os w' /\
             df = bench_table os.
Proof.
  rewrite ml_benchmark_loop. unfold bind. intros Hrun.
  destruct (set_raises (mem w y)) eqn:Hset.
  - destruct (report_raises X y w Hset) as (e & w1 & Hrep & _).
    rewrite Hrep in Hrun. discriminate.
  - split; [reflexivity |].
    rewrite (report_returns_when _ _ _ Hset) in Hrun.
    destruct (for_each (evaluate X y cv) roster (reported X y w))
      as [[e | rows] w1] eqn:Hloop; [discriminate |].
    destruct (for_each_returned _ _ _ _ _ _ _ Hloop) as (os & Hev & ->).
    rewrite pd_DataFrame_rows in Hrun
      by (rewrite (evaluations_length _ _ _ _ _ _ _ Hev); reflexivity).
    inversion Hrun; subst. exists os. split; [assumption | reflexivity].
Qed.

(** *** What [score_and_time] returns *)

(** C1, as amended.  When the cross-validator returns the fold scores,
    [score_and_time] returns as its second item two times the standard
    deviation of the scores with divisor [n] (the population formula, NumPy's
    default), rounded to 3 decimal digits. *)
Theorem score_and_time_spread m X y cv w scores h s :
  cross_val_score m X y cv (mem w, env w) = (inr scores, (h, s)) ->
  exists mean_score duration w',
    score_and_time clock cross_val_score m X y cv w =
      (inr [ Float mean_score;
             Float (round
                      (sqrt (np_sum (map (fun x => (x - np_mean scores)
                                                   * (x - np_mean scores))
                                         scores)
                             / INR (length scores)) * 2) 3);
             Timedelta duration ], w').
Proof.
  intros Hcall. rewrite (score_and_time_returns _ _ _ _ _ _ _ _ Hcall).
  unfold part_l. rewrite np_std_unfold. eauto.
Qed.

(** C4.  When the cross-validator returns the fold scores, the first item
    [score_and_time] returns is their arithmetic mean rounded to 3 decimal
    digits, and the third is the clock read right after the call minus the
    clock read right before it. *)
Theorem score_and_time_mean_and_duration m X y cv w scores h s :
  cross_val_score m X y cv (mem w, env w) = (inr scores, (h, s)) ->
  exists score_spread w',
    score_and_time clock cross_val_score m X y cv w =
      (inr [ Float (round (np_sum scores / INR (length scores)) 3);
             Float score_spread;
             Timedelta (clock s - clock (env w)) ], w')
    /\ log w' = log w ++ [ EvProcessTime (clock (env w));
                           EvCrossValScore m X y cv;
                           EvProcessTime (clock s) ].
Proof.
  intros Hcall. rewrite (score_and_time_returns _ _ _ _ _ _ _ _ Hcall).
  unfold part_l, np_mean. eexists. eexists. split; reflexivity.
Qed.

(** C5.  When the fold scores lie in [0,1] (at least one fold) and the
    process-time clock does not go back during the call, the mean score is
    in [0,1], the spread is non-negative and the duration is non-negative. *)
Theorem score_and_time_ranges m X y cv w scores h s :
  cross_val_score m X y cv (mem w, env w) = (inr scores, (h, s)) ->
  scores <> [] ->
  Forall (fun x => 0 <= x <= 1) scores ->
  clock (env w) <= clock s ->
  exists mean_score score_spread duration w',
    score_and_time clock cross_val_score m X y cv w =
      (inr [Float mean_score; Float score_spread; Timedelta duration], w')
    /\ 0 <= mean_score <= 1 /\ 0 <= score_spread /\ 0 <= duration.
Proof.
  intros Hcall Hne Hall Hclock.
  rewrite (score_and_time_returns _ _ _ _ _ _ _ _ Hcall). unfold part_l.
  do 4 eexists. split; [reflexivity |].
  destruct (np_mean_range scores Hne Hall) as [Hlo Hhi].
  repeat split.
  - apply round_ge_0. exact Hlo.
  - apply round_le_1. exact Hhi.
  - apply round_ge_0. pose proof (np_std_nonneg scores). lra.
  - lra.
Qed.

(** *** What [ml_benchmark] returns *)

(** C3.  Whatever the arrays hold, when the label array is one-dimensional
    and the five evaluations return, [ml_benchmark] returns a table with the
    five row labels, the three column labels, five rows and three cells in
    every row. *)
Theorem ml_benchmark_five_rows X y cv w os w' :
  length (shape (mem w y)) = 1%nat ->
  evaluations X y cv roster (reported X y w) os w' ->
  exists df,
    ml_benchmark clock cross_val_score X y cv w = (inr df, w')
    /\ index df = [ "DecisionTreeClassifier"; "RandomForestClassifier";
                    "AdaBoostClassifier"; "GradientBoostingClassifier";
                    "XGBoost" ]
    /\ columns df = [ "Approx. mean of scores"; "Approx. variance of scores";
                      "Processing time" ]
    /\ length (values df) = 5%nat
    /\ Forall (fun row => length row = 3%nat) (values df).
Proof.
  intros Hdim Hev. exists (bench_table os).
  split; [apply ml_benchmark_returns; assumption |].
  assert (Hlen : length os = 5%nat)
    by (rewrite (evaluations_length _ _ _ _ _ _ _ Hev); reflexivity).
  destruct (bench_table_benchmark_table os Hlen) as (Hi & Hc & Hl & Hrows).
  repeat split; try assumption.
  eapply Forall_impl; [| exact Hrows].
  intros row (a & b & c & ->). reflexivity.
Qed.

(** C8.  A run of [ml_benchmark] that returns has called [score_and_time]
    on the five estimators of the roster one after the other, each call in
    the state the previous one left, each with the same [X_dataset],
    [y_dataset] and [cv], and the rows of the table are the five results in
    that order; the log holds, after the three printed lines, one call of
    the cross-validator per estimator, in roster order, between its own two
    clock reads. *)
Theorem ml_benchmark_calls_in_roster_order X y cv w df w' :
  ml_benchmark clock cross_val_score X y cv w = (inr df, w') ->
  for_each (fun model => score_and_time clock cross_val_score model X y cv)
           roster (reported X y w) = (inr (values df), w')
  /\ index df = rows_name
  /\ exists os,
       evaluations X y cv roster (reported X y w) os w'
       /\ length os = 5%nat
       /\ values df = map row_of os
       /\ log w' = log (reported X y w) ++
            flat_map (fun mo => [ EvProcessTime (obs_start (snd mo));
                                  EvCrossValScore (fst mo) X y cv;
                                  EvProcessTime (obs_stop (snd mo)) ])
                     (combine roster os).
Proof.
  intros Hrun.
  destruct (ml_benchmark_returned _ _ _ _ _ _ Hrun) as (_ & os & Hev & ->).
  split; [exact (for_each_returns _ _ _ _ _ _ _ Hev) |].
  split; [reflexivity |].
  exists os. repeat split.
  - exact Hev.
  - rewrite (evaluations_length _ _ _ _ _ _ _ Hev). reflexivity.
  - exact (evaluations_log _ _ _ _ _ _ _ Hev).
Qed.

(** *** Exceptions *)

(** C6.  When the cross-validator raises at some roster entry, after the
    entries before it returned, [score_and_time] raises the same exception
    right after the call (the second clock read is not made, the call is not
    made again), and [ml_benchmark] raises that exception too, in the state
    the failing call left: no later entry is evaluated and no table is
    built. *)
Theorem exception_propagates X y cv w pre m post os w1 e h s :
  roster = pre ++ m :: post ->
  length (shape (mem w y)) = 1%nat ->
  evaluations X y cv pre (reported X y w) os w1 ->
  cross_val_score m X y cv (mem w1, env w1) = (inl e, (h, s)) ->
  let w2 := {| mem := h; env := s;
               log := log w1 ++ [ EvProcessTime (clock (env w1));
                                  EvCrossValScore m X y cv ] |} in
  score_and_time clock cross_val_score m X y cv w1 = (inl e, w2)
  /\ ml_benchmark clock cross_val_score X y cv w = (inl e, w2).
Proof.
  intros Hroster Hdim Hev Hcall w2.
  pose proof (score_and_time_raises _ _ _ _ _ _ _ _ Hcall) as Hfail.
  split; [exact Hfail |].
  rewrite ml_benchmark_loop. unfold bind.
  rewrite (report_returns _ _ _ Hdim), Hroster.
  rewrite (for_each_raises _ _ _ _ _ _ _ _ _ _ _ Hev Hfail). reflexivity.
Qed.

(** *** The arrays *)

Lemma score_and_time_frame X y cv (r : ref) :
  (forall m h s, fst (snd (cross_val_score m X y cv (h, s))) r = h r) ->
  forall m w,
    mem (snd (score_and_time clock cross_val_score m X y cv w)) r = mem w r.
Proof.
  intros Hframe m w.
  destruct (cross_val_score m X y cv (mem w, env w)) as [[e | scores] [h s]]
    eqn:Hcall;
    [rewrite (score_and_time_raises _ _ _ _ _ _ _ _ Hcall)
    | rewrite (score_and_time_returns _ _ _ _ _ _ _ _ Hcall)];
    cbn; specialize (Hframe m (mem w) (env w)); rewrite Hcall in Hframe;
    exact Hframe.
Qed.

Lemma for_each_frame X y cv (r : ref) :
  (forall m h s, fst (snd (cross_val_score m X y cv (h, s))) r = h r) ->
  forall ms w, mem (snd (for_each (evaluate X y cv) ms w)) r = mem w r.
Proof.
  intros Hframe. induction ms as [| m ms IH]; intros w; cbn.
  - reflexivity.
  - unfold bind.
    pose proof (score_and_time_frame X y cv r Hframe m w) as Hm.
    destruct (score_and_time clock cross_val_score m X y cv w) as [[e | row] w1].
    + exact Hm.
    + specialize (IH w1).
      destruct (for_each (evaluate X y cv) ms w1) as [[e | rows] w2];
        cbn in *; congruence.
Qed.

Lemma report_frame X y w : mem (snd (report X y w)) = mem w.
Proof.
  destruct (set_raises (mem w y)) eqn:Hset.
  - destruct (report_raises X y w Hset) as (e & w1 & -> & Hmem). exact Hmem.
  - rewrite (report_returns_when _ _ _ Hset). reflexivity.
Qed.

(** C9.  Provided the cross-validator leaves the two arrays as they are,
    so do [score_and_time] and [ml_benchmark], whether they return or raise:
    after the call each of the two arrays holds what it held before. *)
Theorem dataset_not_mutated X y cv :
  (forall r, r = X \/ r = y ->
     forall m h s, fst (snd (cross_val_score m X y cv (h, s))) r = h r) ->
  forall w r, r = X \/ r = y ->
    (forall m,
       mem (snd (score_and_time clock cross_val_score m X y cv w)) r = mem w r)
    /\ mem (snd (ml_benchmark clock cross_val_score X y cv w)) r = mem w r.
Proof.
  intros Hframe w r Hr. specialize (Hframe r Hr). split.
  - intros m. apply score_and_time_frame. exact Hframe.
  - rewrite ml_benchmark_loop. unfold bind.
    pose proof (report_frame X y w) as Hrep.
    destruct (report X y w) as [[e | []] w1]; cbn in Hrep.
    + cbn. rewrite Hrep. reflexivity.
    + pose proof (for_each_frame X y cv r Hframe roster w1) as Hloop.
      destruct (for_each (evaluate X y cv) roster w1) as [[e | rows] w2];
        cbn in Hloop.
      * cbn. rewrite Hloop, Hrep. reflexivity.
      * unfold pd_DataFrame.
        destruct (_ && _)%bool; cbn; rewrite Hloop, Hrep; reflexivity.
Qed.

(** *** Aggregating four runs *)

(** C10.  For four runs of [ml_benchmark] that return, the notebook's
    aggregate is defined, and in every row its mean-score cell is the
    arithmetic mean of the four rounded per-run means, its spread cell the
    arithmetic mean of the four rounded per-run spreads: the rounding is done
    per run, before the tables are summed, and the aggregate is not rounded
    again. *)
Theorem aggregate_of_rounded_rows
    X1 y1 cv1 w1 os1 w1' X2 y2 cv2 w2 os2 w2'
    X3 y3 cv3 w3 os3 w3' X4 y4 cv4 w4 os4 w4' :
  length (shape (mem w1 y1)) = 1%nat ->
  evaluations X1 y1 cv1 roster (reported X1 y1 w1) os1 w1' ->
  length (shape (mem w2 y2)) = 1%nat ->
  evaluations X2 y2 cv2 roster (reported X2 y2 w2) os2 w2' ->
  length (shape (mem w3 y3)) = 1%nat ->
  evaluations X3 y3 cv3 roster (reported X3 y3 w3) os3 w3' ->
  length (shape (mem w4 y4)) = 1%nat ->
  evaluations X4 y4 cv4 roster (reported X4 y4 w4) os4 w4' ->
  exists df1 df2 df3 df4 total,
    ml_benchmark clock cross_val_score X1 y1 cv1 w1 = (inr df1, w1')
    /\ ml_benchmark clock cross_val_score X2 y2 cv2 w2 = (inr df2, w2')
    /\ ml_benchmark clock cross_val_score X3 y3 cv3 w3 = (inr df3, w3')
    /\ ml_benchmark clock cross_val_score X4 y4 cv4 w4 = (inr df4, w4')
    /\ df_benchmark_total df1 df2 df3 df4 = Some total
    /\ forall i, (i < 5)%nat ->
         value_at total i 0
         = (round (np_mean (scores_at os1 i)) 3
            + round (np_mean (scores_at os2 i)) 3
            + round (np_mean (scores_at os3 i)) 3
            + round (np_mean (scores_at os4 i)) 3) / 4
         /\ value_at total i 1
            = (round (np_std (scores_at os1 i) * 2) 3
               + round (np_std (scores_at os2 i) * 2) 3
               + round (np_std (scores_at os3 i) * 2) 3
               + round (np_std (scores_at os4 i) * 2) 3) / 4.
Proof.
  intros Hd1 He1 Hd2 He2 Hd3 He3 Hd4 He4.
  assert (L1 : length os1 = 5%nat)
    by (rewrite (evaluations_length _ _ _ _ _ _ _ He1); reflexivity).
  assert (L2 : length os2 = 5%nat)
    by (rewrite (evaluations_length _ _ _ _ _ _ _ He2); reflexivity).
  assert (L3 : length os3 = 5%nat)
    by (rewrite (evaluations_length _ _ _ _ _ _ _ He3); reflexivity).
  assert (L4 : length os4 = 5%nat)
    by (rewrite (evaluations_length _ _ _ _ _ _ _ He4); reflexivity).
  destruct (df_sum_benchmark
              [bench_table os2; bench_table os3; bench_table os4]
              (bench_table os1))
    as (total & Hsum & _ & Hcells).
  { apply bench_table_benchmark_table; exact L1. }
  { repeat constructor; apply bench_table_benchmark_table; assumption. }
  exists (bench_table os1), (bench_table os2), (bench_table os3),
         (bench_table os4), (divide total 4).
  repeat (split; [apply ml_benchmark_returns; assumption |]).
  split.
  - rewrite df_benchmark_total_average. unfold df_average. rewrite Hsum.
    cbn [length]. replace (INR 4) with 4 by (cbn; lra). reflexivity.
  - intros i Hi. rewrite !value_at_divide, !Hcells.
    unfold np_sum. cbn [map fold_right].
    destruct (value_at_bench_table os1 i) as [-> ->]; [lia |].
    destruct (value_at_bench_table os2 i) as [-> ->]; [lia |].
    destruct (value_at_bench_table os3 i) as [-> ->]; [lia |].
    destruct (value_at_bench_table os4 i) as [-> ->]; [lia |].
    split; lra.
Qed.

(** *** Seeds *)

(** Two runs of the loop on arrays that hold the same data: provided the
    cross-validator leaves the arrays alone and gives an estimator built
    with a seed scores that depend on the estimator, the data and [cv] only,
    the fold scores of every seeded estimator are the same in both runs. *)
Lemma seeded_scores_reproducible X y cv :
  (forall r, r = X \/ r = y ->
     forall m h s, fst (snd (cross_val_score m X y cv (h, s))) r = h r) ->
  (forall m (h1 : heap) s1 (h2 : heap) s2,
     seed_of m <> None -> h1 X = h2 X -> h1 y = h2 y ->
     fst (cross_val_score m X y cv (h1, s1))
     = fst (cross_val_score m X y cv (h2, s2))) ->
  forall ms w1 os1 w1',
    evaluations X y cv ms w1 os1 w1' ->
    forall w2 os2 w2',
      evaluations X y cv ms w2 os2 w2' ->
      mem w1 X = mem w2 X -> mem w1 y = mem w2 y ->
      forall i, seed_of (nth i ms (GradientBoostingClassifier 50 2 None))
                <> None ->
                scores_at os1 i = scores_at os2 i.
Proof.
  intros Hframe Hseed ms w1 os1 w1' Hev1.
  induction Hev1 as [w1 | m ms w1 scores1 h1 s1 os1 w1' Hcall1 _ IH];
    intros w2 os2 w2' Hev2 HX Hy i Hi.
  - inversion Hev2; subst. reflexivity.
  - inversion Hev2 as [| ? ? ? scores2 h2 s2 os2' ? Hcall2 Hrest]; subst.
    destruct i as [| i].
    + cbn in Hi. unfold scores_at. cbn.
      pose proof (Hseed m (mem w1) (env w1) (mem w2) (env w2) Hi HX Hy) as Heq.
      rewrite Hcall1, Hcall2 in Heq. cbn in Heq. congruence.
    + unfold scores_at in *. cbn [nth]. eapply IH; [exact Hrest | | | exact Hi].
      * cbn.
        pose proof (Hframe X (or_introl eq_refl) m (mem w1) (env w1)) as F1.
        pose proof (Hframe X (or_introl eq_refl) m (mem w2) (env w2)) as F2.
        rewrite Hcall1 in F1. rewrite Hcall2 in F2. cbn in F1, F2. congruence.
      * cbn.
        pose proof (Hframe y (or_intror eq_refl) m (mem w1) (env w1)) as F1.
        pose proof (Hframe y (or_intror eq_refl) m (mem w2) (env w2)) as F2.
        rewrite Hcall1 in F1. rewrite Hcall2 in F2. cbn in F1, F2. congruence.
Qed.

(** X7.  Hence the rows of the four estimators that [ml_benchmark] builds
    with [random_state=0] carry the same mean score and the same spread in
    two runs on the same data.  Nothing of the kind follows for the row of
    [GradientBoostingClassifier], which is built without a seed. *)
Lemma seeded_rows_reproducible X y cv w1 df1 w1' w2 df2 w2' :
  (forall r, r = X \/ r = y ->
     forall m h s, fst (snd (cross_val_score m X y cv (h, s))) r = h r) ->
  (forall m (h1 : heap) s1 (h2 : heap) s2,
     seed_of m <> None -> h1 X = h2 X -> h1 y = h2 y ->
     fst (cross_val_score m X y cv (h1, s1))
     = fst (cross_val_score m X y cv (h2, s2))) ->
  mem w1 X = mem w2 X -> mem w1 y = mem w2 y ->
  ml_benchmark clock cross_val_score X y cv w1 = (inr df1, w1') ->
  ml_benchmark clock cross_val_score X y cv w2 = (inr df2, w2') ->
  forall i, In i [0; 1; 2; 4]%nat ->
    value_at df1 i 0 = value_at df2 i 0 /\ value_at df1 i 1 = value_at df2 i 1.
Proof.
  intros Hframe Hseed HX Hy Hrun1 Hrun2 i Hi.
  destruct (ml_benchmark_returned _ _ _ _ _ _ Hrun1) as (_ & os1 & He1 & ->).
  destruct (ml_benchmark_returned _ _ _ _ _ _ Hrun2) as (_ & os2 & He2 & ->).
  assert (L1 : length os1 = 5%nat)
    by (rewrite (evaluations_length _ _ _ _ _ _ _ He1); reflexivity).
  assert (L2 : length os2 = 5%nat)
    by (rewrite (evaluations_length _ _ _ _ _ _ _ He2); reflexivity).
  assert (Hlt : (i < 5)%nat) by (cbn in Hi; intuition lia).
  destruct (value_at_bench_table os1 i) as [-> ->]; [lia |].
  destruct (value_at_bench_table os2 i) as [-> ->]; [lia |].
  rewrite (seeded_scores_reproducible X y cv Hframe Hseed roster
             _ _ _ He1 _ _ _ He2 HX Hy i); [split; reflexivity |].
  cbn in Hi. destruct Hi as [<- | [<- | [<- | [<- | []]]]]; cbn; discriminate.
Qed.

End Facts.

(** ** Runs on the stand-in library *)

#[local] Arguments round : simpl never.
#[local] Arguments np_mean : simpl never.
#[local] Arguments np_std : simpl never.
#[local] Arguments nodup : simpl never.

Ltac toy_run :=
  unfold roster, Toy.first_observations; cbn;
  repeat (eapply evaluations_cons; [cbn; reflexivity | cbn]);
  apply evaluations_nil.

Lemma Toy_frame (r : ref) m X y cv (h : heap) (s : Toy.ext) :
  fst (snd (Toy.cross_val_score m X y cv (h, s))) r = h r.
Proof.
  unfold Toy.cross_val_score. cbn.
  destruct (cv <? 2)%Z; [reflexivity |]. destruct (seed_of m); reflexivity.
Qed.

Lemma Toy_seeded m X y cv (h1 : heap) (s1 : Toy.ext) (h2 : heap) (s2 : Toy.ext) :
  seed_of m <> None ->
  fst (Toy.cross_val_score m X y cv (h1, s1))
  = fst (Toy.cross_val_score m X y cv (h2, s2)).
Proof.
  intros Hseed. unfold Toy.cross_val_score. cbn.
  destruct (cv <? 2)%Z; [reflexivity |].
  destruct (seed_of m); [reflexivity | congruence].
Qed.

(** A first run from [Toy.start]: every estimator sees the fold scores 1
    and 1. *)
Lemma Toy_first_run :
  evaluations Toy.clock Toy.cross_val_score Toy.X_dataset Toy.y_dataset 2
    roster (reported Toy.X_dataset Toy.y_dataset Toy.start)
    Toy.first_observations Toy.after_first_run.
Proof.
  assert (Hrun : exists os w1,
             evaluations Toy.clock Toy.cross_val_score
               Toy.X_dataset Toy.y_dataset 2 roster
               (reported Toy.X_dataset Toy.y_dataset Toy.start) os w1
             /\ os = Toy.first_observations /\ w1 = Toy.after_first_run).
  { do 2 eexists. split; [toy_run |]. cbn. split; reflexivity. }
  destruct Hrun as (os & w1 & Hev & -> & ->). exact Hev.
Qed.

(** A second run, from the state the first one left: the estimator built
    without a seed now sees the fold scores 0 and 1. *)
Lemma Toy_second_run :
  exists os w2,
    evaluations Toy.clock Toy.cross_val_score Toy.X_dataset Toy.y_dataset 2
      roster (reported Toy.X_dataset Toy.y_dataset Toy.after_first_run) os w2
    /\ scores_at os 3 = [0; 1].
Proof.
  do 2 eexists. split; [toy_run | reflexivity].
Qed.

(** ** The theorems at concrete inputs *)

(** C1: the claim as stated fails.  The cross-validator returns the two
    fold scores 0 and 1; [score_and_time] returns the spread 1, and two
    times the sample standard deviation, rounded to 3 digits, is 1.414. *)
Lemma spread_is_not_sample_std :
  Toy.cross_val_score (GradientBoostingClassifier 50 2 None)
    Toy.X_dataset Toy.y_dataset 2 (mem Toy.one_draw, env Toy.one_draw)
  = (inr [0; 1], (Toy.memory, (0 + 1, 2%nat)))
  /\ exists mean_score score_spread duration w',
       score_and_time Toy.clock Toy.cross_val_score
         (GradientBoostingClassifier 50 2 None)
         Toy.X_dataset Toy.y_dataset 2 Toy.one_draw
       = (inr [Float mean_score; Float score_spread; Timedelta duration], w')
       /\ score_spread = 1
       /\ round (sample_std [0; 1] * 2) 3 = 1414 / 1000
       /\ score_spread <> round (sample_std [0; 1] * 2) 3.
Proof.
  assert (Hcall : Toy.cross_val_score (GradientBoostingClassifier 50 2 None)
                    Toy.X_dataset Toy.y_dataset 2
                    (mem Toy.one_draw, env Toy.one_draw)
                  = (inr [0; 1], (Toy.memory, (0 + 1, 2%nat))))
    by reflexivity.
  split; [exact Hcall |].
  rewrite (score_and_time_returns _ _ _ _ _ _ _ _ _ _ _ Hcall). unfold part_l.
  do 4 eexists. split; [reflexivity |].
  rewrite spread_of_0_and_1, sample_spread_of_0_and_1.
  repeat split; lra.
Qed.

Lemma score_and_time_spread_witness :
  Toy.cross_val_score (GradientBoostingClassifier 50 2 None)
    Toy.X_dataset Toy.y_dataset 2 (mem Toy.one_draw, env Toy.one_draw)
  = (inr [0; 1], (Toy.memory, (0 + 1, 2%nat)))
  /\ exists mean_score duration w',
       score_and_time Toy.clock Toy.cross_val_score
         (GradientBoostingClassifier 50 2 None)
         Toy.X_dataset Toy.y_dataset 2 Toy.one_draw
       = (inr [ Float mean_score;
                Float (round
                         (sqrt (np_sum (map (fun x => (x - np_mean [0; 1])
                                                      * (x - np_mean [0; 1]))
                                            [0; 1])
                                / INR (length [0; 1])) * 2) 3);
                Timedelta duration ], w').
Proof.
  split; [reflexivity |].
  apply (score_and_time_spread Toy.ext Toy.clock Toy.cross_val_score
           (GradientBoostingClassifier 50 2 None) Toy.X_dataset Toy.y_dataset 2
           Toy.one_draw [0; 1] Toy.memory (0 + 1, 2%nat)).
  reflexivity.
Defined.

Lemma score_and_time_mean_and_duration_witness :
  Toy.cross_val_score (DecisionTreeClassifier None (Some 0%Z))
    Toy.X_dataset Toy.y_dataset 2 (mem Toy.start, env Toy.start)
  = (inr [1; 1], (Toy.memory, (0 + 1, 0%nat)))
  /\ exists score_spread w',
       score_and_time Toy.clock Toy.cross_val_score
         (DecisionTreeClassifier None (Some 0%Z))
         Toy.X_dataset Toy.y_dataset 2 Toy.start
       = (inr [ Float (round (np_sum [1; 1] / INR (length [1; 1])) 3);
                Float score_spread;
                Timedelta (Toy.clock (0 + 1, 0%nat) - Toy.clock (env Toy.start)) ],
          w')
       /\ log w' = log Toy.start ++
            [ EvProcessTime (Toy.clock (env Toy.start));
              EvCrossValScore (DecisionTreeClassifier None (Some 0%Z))
                Toy.X_dataset Toy.y_dataset 2;
              EvProcessTime (Toy.clock (0 + 1, 0%nat)) ].
Proof.
  split; [reflexivity |].
  apply (score_and_time_mean_and_duration Toy.ext Toy.clock Toy.cross_val_score
           (DecisionTreeClassifier None (Some 0%Z)) Toy.X_dataset Toy.y_dataset 2
           Toy.start [1; 1] Toy.memory (0 + 1, 0%nat)).
  reflexivity.
Defined.

Lemma score_and_time_ranges_witness :
  Toy.cross_val_score (DecisionTreeClassifier None (Some 0%Z))
    Toy.X_dataset Toy.y_dataset 2 (mem Toy.start, env Toy.start)
  = (inr [1; 1], (Toy.memory, (0 + 1, 0%nat)))
  /\ [1; 1] <> []
  /\ Forall (fun x => 0 <= x <= 1) [1; 1]
  /\ Toy.clock (env Toy.start) <= Toy.clock (0 + 1, 0%nat)
  /\ exists mean_score score_spread duration w',
       score_and_time Toy.clock Toy.cross_val_score
         (DecisionTreeClassifier None (Some 0%Z))
         Toy.X_dataset Toy.y_dataset 2 Toy.start
       = (inr [Float mean_score; Float score_spread; Timedelta duration], w')
       /\ 0 <= mean_score <= 1 /\ 0 <= score_spread /\ 0 <= duration.
Proof.
  assert (H1 : [1; 1] <> @nil R) by discriminate.
  assert (H2 : Forall (fun x => 0 <= x <= 1) [1; 1])
    by (repeat constructor; lra).
  assert (H3 : Toy.clock (env Toy.start) <= Toy.clock (0 + 1, 0%nat))
    by (cbn; lra).
  split; [reflexivity |]. split; [exact H1 |]. split; [exact H2 |].
  split; [exact H3 |].
  apply (score_and_time_ranges Toy.ext Toy.clock Toy.cross_val_score
           (DecisionTreeClassifier None (Some 0%Z)) Toy.X_dataset Toy.y_dataset 2
           Toy.start [1; 1] Toy.memory (0 + 1, 0%nat));
    [reflexivity | exact H1 | exact H2 | exact H3].
Defined.

Lemma ml_benchmark_five_rows_witness :
  length (shape (mem Toy.start Toy.y_dataset)) = 1%nat
  /\ evaluations Toy.clock Toy.cross_val_score Toy.X_dataset Toy.y_dataset 2
       roster (reported Toy.X_dataset Toy.y_dataset Toy.start)
       Toy.first_observations Toy.after_first_run
  /\ exists df,
       ml_benchmark Toy.clock Toy.cross_val_score Toy.X_dataset Toy.y_dataset 2
         Toy.start = (inr df, Toy.after_first_run)
       /\ index df = [ "DecisionTreeClassifier"; "RandomForestClassifier";
                       "AdaBoostClassifier"; "GradientBoostingClassifier";
                       "XGBoost" ]
       /\ columns df = [ "Approx. mean of scores";
                         "Approx. variance of scores"; "Processing time" ]
       /\ length (values df) = 5%nat
       /\ Forall (fun row => length row = 3%nat) (values df).
Proof.
  split; [reflexivity |]. split; [exact Toy_first_run |].
  apply (ml_benchmark_five_rows Toy.ext Toy.clock Toy.cross_val_score
           Toy.X_dataset Toy.y_dataset 2 Toy.start Toy.first_observations
           Toy.after_first_run);
    [reflexivity | exact Toy_first_run].
Defined.

Lemma ml_benchmark_calls_in_roster_order_witness :
  ml_benchmark Toy.clock Toy.cross_val_score Toy.X_dataset Toy.y_dataset 2
    Toy.start = (inr (bench_table Toy.first_observations), Toy.after_first_run)
  /\ for_each (fun model => score_and_time Toy.clock Toy.cross_val_score model
                             Toy.X_dataset Toy.y_dataset 2)
       roster (reported Toy.X_dataset Toy.y_dataset Toy.start)
     = (inr (values (bench_table Toy.first_observations)), Toy.after_first_run)
  /\ index (bench_table Toy.first_observations) = rows_name
  /\ exists os,
       evaluations Toy.clock Toy.cross_val_score Toy.X_dataset Toy.y_dataset 2
         roster (reported Toy.X_dataset Toy.y_dataset Toy.start) os
         Toy.after_first_run
       /\ length os = 5%nat
       /\ values (bench_table Toy.first_observations) = map row_of os
       /\ log Toy.after_first_run
          = log (reported Toy.X_dataset Toy.y_dataset Toy.start) ++
            flat_map (fun mo => [ EvProcessTime (obs_start (snd mo));
                                  EvCrossValScore (fst mo)
                                    Toy.X_dataset Toy.y_dataset 2;
                                  EvProcessTime (obs_stop (snd mo)) ])
                     (combine roster os).
Proof.
  assert (Hrun : ml_benchmark Toy.clock Toy.cross_val_score
                   Toy.X_dataset Toy.y_dataset 2 Toy.start
                 = (inr (bench_table Toy.first_observations),
                    Toy.after_first_run)).
  { apply ml_benchmark_returns; [reflexivity | exact Toy_first_run]. }
  split; [exact Hrun |].
  exact (ml_benchmark_calls_in_roster_order Toy.ext Toy.clock
           Toy.cross_val_score Toy.X_dataset Toy.y_dataset 2 Toy.start
           (bench_table Toy.first_observations) Toy.after_first_run Hrun).
Defined.

(** With a single fold the cross-validator refuses the first estimator. *)
Lemma exception_propagates_witness :
  let m := DecisionTreeClassifier None (Some 0%Z) in
  let e := Exception "ValueError" "n_splits must be at least 2" in
  let w1 := reported Toy.X_dataset Toy.y_dataset Toy.start in
  let w2 := {| mem := Toy.memory; env := (0, 0%nat);
               log := log w1 ++ [ EvProcessTime 0;
                                  EvCrossValScore m Toy.X_dataset
                                    Toy.y_dataset 1 ] |} in
  roster = [] ++ m :: tl roster
  /\ length (shape (mem Toy.start Toy.y_dataset)) = 1%nat
  /\ evaluations Toy.clock Toy.cross_val_score Toy.X_dataset Toy.y_dataset 1
       [] w1 [] w1
  /\ Toy.cross_val_score m Toy.X_dataset Toy.y_dataset 1 (mem w1, env w1)
     = (inl e, (Toy.memory, (0, 0%nat)))
  /\ score_and_time Toy.clock Toy.cross_val_score m
       Toy.X_dataset Toy.y_dataset 1 w1 = (inl e, w2)
  /\ ml_benchmark Toy.clock Toy.cross_val_score Toy.X_dataset Toy.y_dataset 1
       Toy.start = (inl e, w2).
Proof.
  intros m e w1 w2.
  split; [reflexivity |]. split; [reflexivity |].
  split; [apply evaluations_nil |]. split; [reflexivity |].
  apply (exception_propagates Toy.ext Toy.clock Toy.cross_val_score
           Toy.X_dataset Toy.y_dataset 1 Toy.start [] m (tl roster) [] w1 e
           Toy.memory (0, 0%nat));
    [reflexivity | reflexivity | apply evaluations_nil | reflexivity].
Defined.

Lemma dataset_not_mutated_witness :
  (forall r, r = Toy.X_dataset \/ r = Toy.y_dataset ->
     forall m (h : heap) (s : Toy.ext),
       fst (snd (Toy.cross_val_score m Toy.X_dataset Toy.y_dataset 2 (h, s))) r
       = h r)
  /\ (forall m,
        mem (snd (score_and_time Toy.clock Toy.cross_val_score m
                    Toy.X_dataset Toy.y_dataset 2 Toy.start)) Toy.X_dataset
        = mem Toy.start Toy.X_dataset)
  /\ mem (snd (ml_benchmark Toy.clock Toy.cross_val_score
                 Toy.X_dataset Toy.y_dataset 2 Toy.start)) Toy.X_dataset
     = mem Toy.start Toy.X_dataset.
Proof.
  assert (Hframe : forall r, r = Toy.X_dataset \/ r = Toy.y_dataset ->
            forall m (h : heap) (s : Toy.ext),
              fst (snd (Toy.cross_val_score m Toy.X_dataset Toy.y_dataset 2
                          (h, s))) r = h r).
  { intros r _ m h s. apply Toy_frame. }
  split; [exact Hframe |].
  exact (dataset_not_mutated Toy.ext Toy.clock Toy.cross_val_score
           Toy.X_dataset Toy.y_dataset 2 Hframe Toy.start Toy.X_dataset
           (or_introl eq_refl)).
Defined.



(** The example of the specification: two tables in which a classifier
    scores 0.90 and 0.96 average to 0.93 for that classifier. *)
Example average_of_090_and_096 :
  exists average,
    df_average [Toy.table_scoring (90 / 100); Toy.table_scoring (96 / 100)]
    = Some average
    /\ value_at average 0 0 = 93 / 100.
Proof.
  eexists. split; [reflexivity |]. unfold value_at. cbn. lra.
Qed.

Lemma aggregate_of_rounded_rows_witness :
  length (shape (mem Toy.start Toy.y_dataset)) = 1%nat
  /\ evaluations Toy.clock Toy.cross_val_score Toy.X_dataset Toy.y_dataset 2
       roster (reported Toy.X_dataset Toy.y_dataset Toy.start)
       Toy.first_observations Toy.after_first_run
  /\ exists df1 df2 df3 df4 total,
       ml_benchmark Toy.clock Toy.cross_val_score Toy.X_dataset Toy.y_dataset 2
         Toy.start = (inr df1, Toy.after_first_run)
       /\ ml_benchmark Toy.clock Toy.cross_val_score Toy.X_dataset
            Toy.y_dataset 2 Toy.start = (inr df2, Toy.after_first_run)
       /\ ml_benchmark Toy.clock Toy.cross_val_score Toy.X_dataset
            Toy.y_dataset 2 Toy.start = (inr df3, Toy.after_first_run)
       /\ ml_benchmark Toy.clock Toy.cross_val_score Toy.X_dataset
            Toy.y_dataset 2 Toy.start = (inr df4, Toy.after_first_run)
       /\ df_benchmark_total df1 df2 df3 df4 = Some total
       /\ forall i, (i < 5)%nat ->
            value_at total i 0
            = (round (np_mean (scores_at Toy.first_observations i)) 3
               + round (np_mean (scores_at Toy.first_observations i)) 3
               + round (np_mean (scores_at Toy.first_observations i)) 3
               + round (np_mean (scores_at Toy.first_observations i)) 3) / 4
            /\ value_at total i 1
               = (round (np_std (scores_at Toy.first_observations i) * 2) 3
                  + round (np_std (scores_at Toy.first_observations i) * 2) 3
                  + round (np_std (scores_at Toy.first_observations i) * 2) 3
                  + round (np_std (scores_at Toy.first_observations i) * 2) 3)
                 / 4.
Proof.
  assert (Hdim : length (shape (mem Toy.start Toy.y_dataset)) = 1%nat)
    by reflexivity.
  split; [exact Hdim |]. split; [exact Toy_first_run |].
  exact (aggregate_of_rounded_rows Toy.ext Toy.clock Toy.cross_val_score
           _ _ _ _ _ _ _ _ _ _ _ _ _ _ _ _ _ _ _ _ _ _ _ _
           Hdim Toy_first_run Hdim Toy_first_run
           Hdim Toy_first_run Hdim Toy_first_run).
Defined.

(** The aggregate is not the rounded mean of the raw fold scores.  Three
    runs see the fold scores 0.5 and 0.5 and one sees 0.501 and 0.501: the
    aggregated mean score is 0.50025, while the mean of the eight fold
    scores, rounded to 3 digits, is 0.5. *)
Example aggregate_is_not_rounded_mean_of_raw :
  exists total,
    df_benchmark_total
      (bench_table (Toy.observed (1 / 2) (1 / 2)))
      (bench_table (Toy.observed (1 / 2) (1 / 2)))
      (bench_table (Toy.observed (1 / 2) (1 / 2)))
      (bench_table (Toy.observed (501 / 1000) (501 / 1000))) = Some total
    /\ value_at total 0 0 = 50025 / 100000
    /\ round (np_mean [ 1 / 2; 1 / 2; 1 / 2; 1 / 2; 1 / 2; 1 / 2;
                        501 / 1000; 501 / 1000 ]) 3 = 1 / 2.
Proof.
  eexists. split; [reflexivity |]. split.
  - unfold value_at. cbn. rewrite !np_mean_pair.
    replace ((1 / 2 + 1 / 2) / 2) with (1 / 2) by lra.
    replace ((501 / 1000 + 501 / 1000) / 2) with (501 / 1000) by lra.
    rewrite (round_decimal 500) by (cbn; lra).
    rewrite (round_decimal 501) by (cbn; lra).
    lra.
  - replace (np_mean _) with (50025 / 100000)
      by (unfold np_mean, np_sum; cbn; lra).
    rewrite (round_nearest 500) by (cbn; lra). cbn. lra.
Qed.

(** * More of the notebook *)

(** ** Rounding *)

Lemma round_error (x : R) (d : nat) : Rabs (round x d - x) <= 1 / (2 * 10 ^ d).
Proof.
  unfold round. pose proof (pow10_pos d) as Hp.
  destruct (rint_error (x * 10 ^ d)) as [Hlo Hhi].
  set (p := 10 ^ d) in *. set (r := IZR (rint (x * p))) in *.
  replace (r / p - x) with ((r - x * p) * / p) by (field; lra).
  replace (1 / (2 * p)) with (1 / 2 * / p) by (field; lra).
  assert (Hinv : 0 < / p) by (apply Rinv_0_lt_compat; exact Hp).
  apply Rabs_le. split.
  - replace (- (1 / 2 * / p)) with ((- (1 / 2)) * / p) by ring.
    apply Rmult_le_compat_r; lra.
  - apply Rmult_le_compat_r; lra.
Qed.



(** ** The standard deviation of scores between 0 and 1 *)

Lemma np_sum_deviations (c : R) (a : list R) :
  np_sum (map (fun x => (x - c) * (x - c)) a)
  = np_sum (map (fun x => x * x) a) - 2 * c * np_sum a
    + INR (length a) * (c * c).
Proof.
  induction a as [| x a IH].
  - cbn. ring.
  - change (length (x :: a)) with (S (length a)). rewrite S_INR.
    unfold np_sum in *. cbn [map fold_right]. rewrite IH. ring.
Qed.

Lemma np_sum_squares_le (a : list R) :
  Forall (fun x => 0 <= x <= 1) a ->
  np_sum (map (fun x => x * x) a) <= np_sum a.
Proof.
  induction 1 as [| x a Hx _ IH]; unfold np_sum in *; cbn [map fold_right].
  - lra.
  - nra.
Qed.

Lemma np_sum_deviations_nonneg (c : R) (a : list R) :
  0 <= np_sum (map (fun x => (x - c) * (x - c)) a).
Proof.
  induction a as [| x a IH]; unfold np_sum in *; cbn [map fold_right].
  - lra.
  - pose proof (Rle_0_sqr (x - c)) as Hsq. unfold Rsqr in Hsq. lra.
Qed.

Lemma np_var_le_quarter (a : list R) :
  a <> [] -> Forall (fun x => 0 <= x <= 1) a -> 0 <= np_var a <= 1 / 4.
Proof.
  intros Hne Hall.
  assert (Hn : 0 < INR (length a)).
  { apply lt_0_INR. destruct a; [congruence | cbn; lia]. }
  pose proof (np_sum_deviations_nonneg (np_mean a) a) as Hq0.
  assert (Hvar : np_var a
                 = np_sum (map (fun x => (x - np_mean a) * (x - np_mean a)) a)
                   / INR (length a)).
  { unfold np_var, np_mean at 1. rewrite length_map. reflexivity. }
  rewrite Hvar. rewrite np_sum_deviations in Hq0 |- *.
  pose proof (np_sum_squares_le a Hall) as Hsq.
  destruct (np_mean_range a Hne Hall) as [Hm0 Hm1].
  assert (Hsum : np_sum a = INR (length a) * np_mean a).
  { unfold np_mean. field. lra. }
  rewrite Hsum in Hq0, Hsq |- *.
  set (n := INR (length a)) in *. set (m := np_mean a) in *.
  set (q := np_sum (map (fun x => x * x) a)) in *.
  assert (Hinv : 0 < / n) by (apply Rinv_0_lt_compat; exact Hn).
  split.
  - apply Rmult_le_pos; lra.
  - assert (Hsqr : 0 <= n * ((m - 1 / 2) * (m - 1 / 2))).
    { apply Rmult_le_pos; [lra |].
      pose proof (Rle_0_sqr (m - 1 / 2)) as H. exact H. }
    assert (HE : q - 2 * m * (n * m) + n * (m * m) <= n * (1 / 4)) by nra.
    replace (1 / 4) with (n * (1 / 4) * / n) by (field; lra).
    unfold Rdiv at 1. apply Rmult_le_compat_r; lra.
Qed.

Lemma np_std_le_half (a : list R) :
  a <> [] -> Forall (fun x => 0 <= x <= 1) a -> np_std a <= 1 / 2.
Proof.
  intros Hne Hall. destruct (np_var_le_quarter a Hne Hall) as [H0 H1].
  unfold np_std. replace (1 / 2) with (sqrt (1 / 4)).
  - apply sqrt_le_1; lra.
  - replace (1 / 4) with ((1 / 2) * (1 / 2)) by lra. apply sqrt_square. lra.
Qed.

(** ** Fold scores that are all the same *)




(** ** More on [score_and_time] and [ml_benchmark] *)

Section MoreFacts.

Variable ext : Type.
Variable clock : ext -> R.
Variable cross_val_score :
  estimator -> ref -> ref -> Z -> heap * ext -> (exn + list R) * (heap * ext).

Implicit Types (w : world ext) (m : estimator) (X y : ref) (cv : Z).

Local Abbreviation evaluate X y cv :=
  (fun model => score_and_time clock cross_val_score model X y cv).
Local Abbreviation evaluations := (evaluations clock cross_val_score).

(** X1.  The two scores [score_and_time] returns are within 0.0005 of the
    mean of the fold scores and of two times their standard deviation. *)
Theorem score_and_time_rounding_error m X y cv w scores h s :
  cross_val_score m X y cv (mem w, env w) = (inr scores, (h, s)) ->
  exists mean_score score_spread duration w',
    score_and_time clock cross_val_score m X y cv w =
      (inr [Float mean_score; Float score_spread; Timedelta duration], w')
    /\ Rabs (mean_score - np_mean scores) <= 5 / 10000
    /\ Rabs (score_spread - np_std scores * 2) <= 5 / 10000.
Proof.
  intros Hcall. rewrite (score_and_time_returns _ _ _ _ _ _ _ _ _ _ _ Hcall).
  unfold part_l. do 4 eexists. split; [reflexivity |].
  assert (Hbound : 1 / (2 * 10 ^ 3) = 5 / 10000) by (cbn; lra).
  rewrite <- Hbound. split; apply round_error.
Qed.

(** X2.  With fold scores between 0 and 1 the spread is at most 1. *)
Theorem score_and_time_spread_at_most_1 m X y cv w scores h s :
  cross_val_score m X y cv (mem w, env w) = (inr scores, (h, s)) ->
  scores <> [] ->
  Forall (fun x => 0 <= x <= 1) scores ->
  exists mean_score score_spread duration w',
    score_and_time clock cross_val_score m X y cv w =
      (inr [Float mean_score; Float score_spread; Timedelta duration], w')
    /\ score_spread <= 1.
Proof.
  intros Hcall Hne Hall.
  rewrite (score_and_time_returns _ _ _ _ _ _ _ _ _ _ _ Hcall).
  unfold part_l. do 4 eexists. split; [reflexivity |].
  apply round_le_1. pose proof (np_std_le_half scores Hne Hall). lra.
Qed.



Lemma report_stops_at_set X y w :
  set_raises (mem w y) = true ->
  report X y w =
    (inl (Exception "TypeError" "unhashable or not iterable"),
     {| mem := mem w; env := env w;
        log := log w ++
          [ EvPrint "The shape of X_dataset is:" (PShape (shape (mem w X)));
            EvPrint "The shape of y_dataset is:" (PShape (shape (mem w y))) ]
     |}).
Proof.
  intros Hset. unfold report, bind, ndarray_shape, print, emit, py_set.
  cbn. rewrite Hset. cbn.
  rewrite <- !app_assoc. reflexivity.
Qed.

(** X5.  A label array on which [set] raises stops [ml_benchmark] at
    [set(y_dataset)]: one with no dimension, or with two or more dimensions
    and a non-empty first axis.  [ml_benchmark] raises [TypeError] after the
    two lines about the shapes, without reading the clock or calling the
    cross-validator, and leaves the arrays and the external state as they
    were. *)
Theorem ml_benchmark_rejects_labels X y cv w :
  set_raises (mem w y) = true ->
  ml_benchmark clock cross_val_score X y cv w =
    (inl (Exception "TypeError" "unhashable or not iterable"),
     {| mem := mem w; env := env w;
        log := log w ++
          [ EvPrint "The shape of X_dataset is:" (PShape (shape (mem w X)));
            EvPrint "The shape of y_dataset is:" (PShape (shape (mem w y))) ]
     |}).
Proof.
  intros Hset. rewrite ml_benchmark_loop. unfold bind.
  rewrite (report_stops_at_set X y w Hset). reflexivity.
Qed.

Lemma for_each_raised X y cv ms :
  forall w e w',
    for_each (evaluate X y cv) ms w = (inl e, w') ->
    exists pre m post os w1 h s,
      ms = pre ++ m :: post
      /\ evaluations X y cv pre w os w1
      /\ cross_val_score m X y cv (mem w1, env w1) = (inl e, (h, s)).
Proof.
  induction ms as [| m ms IH]; cbn; intros w e w' Hrun.
  - discriminate.
  - unfold bind in Hrun.
    destruct (cross_val_score m X y cv (mem w, env w)) as [[e0 | scores] [h s]]
      eqn:Hcall.
    + rewrite (score_and_time_raises _ _ _ _ _ _ _ _ _ _ _ Hcall) in Hrun.
      inversion Hrun; subst.
      exists [], m, ms, [], w, h, s.
      repeat split; [constructor | exact Hcall].
    + rewrite (score_and_time_returns _ _ _ _ _ _ _ _ _ _ _ Hcall) in Hrun.
      match type of Hrun with
      | context [for_each _ ms ?w1] =>
          destruct (for_each (evaluate X y cv) ms w1) as [[e1 | rs] w2] eqn:Hrest
      end; [| discriminate].
      inversion Hrun; subst.
      destruct (IH _ _ _ Hrest) as (pre & m' & post & os & w1 & h' & s' & -> & Hev & Hfail).
      exists (m :: pre), m', post. do 4 eexists.
      split; [reflexivity |]. split; [| exact Hfail].
      econstructor; eassumption.
Qed.

(** X6.  [ml_benchmark] has two sources of failure and no other: either the
    label array is not one-dimensional and [set(y_dataset)] raises, or the
    cross-validator raised that very exception at some roster entry after
    the entries before it returned.  Building the table never fails. *)
Theorem ml_benchmark_failure_sources X y cv w e w' :
  ml_benchmark clock cross_val_score X y cv w = (inl e, w') ->
  (length (shape (mem w y)) <> 1%nat
   /\ e = Exception "TypeError" "unhashable or not iterable")
  \/ exists pre m post os w1 h s,
       roster = pre ++ m :: post
       /\ evaluations X y cv pre (reported X y w) os w1
       /\ cross_val_score m X y cv (mem w1, env w1) = (inl e, (h, s)).
Proof.
  intros Hrun.
  destruct (set_raises (mem w y)) eqn:Hset.
  - left. split; [apply set_raises_dim; exact Hset |].
    rewrite (ml_benchmark_rejects_labels X y cv w Hset) in Hrun.
    inversion Hrun. reflexivity.
  - right. rewrite ml_benchmark_loop in Hrun. unfold bind in Hrun.
    rewrite (report_returns_when _ _ _ _ Hset) in Hrun.
    destruct (for_each (evaluate X y cv) roster (reported X y w))
      as [[e0 | rows] w1] eqn:Hloop.
    + inversion Hrun; subst. exact (for_each_raised _ _ _ _ _ _ _ Hloop).
    + destruct (for_each_returned _ _ _ _ _ _ _ _ _ _ Hloop) as (os & Hev & ->).
      rewrite pd_DataFrame_rows in Hrun
        by (rewrite (evaluations_length _ _ _ _ _ _ _ _ _ _ Hev); reflexivity).
      discriminate.
Qed.

(** X8.  When the fold scores of the five evaluations are between 0 and 1,
    every mean score and every spread of the table [ml_benchmark] returns is
    between 0 and 1. *)
Theorem ml_benchmark_cells_in_range X y cv w os w' :
  length (shape (mem w y)) = 1%nat ->
  evaluations X y cv roster (reported X y w) os w' ->
  Forall (fun o => obs_scores o <> []
                   /\ Forall (fun x => 0 <= x <= 1) (obs_scores o)) os ->
  exists df,
    ml_benchmark clock cross_val_score X y cv w = (inr df, w')
    /\ forall i, (i < 5)%nat ->
         0 <= value_at df i 0 <= 1 /\ 0 <= value_at df i 1 <= 1.
Proof.
  intros Hdim Hev Hall. exists (bench_table os).
  split; [apply ml_benchmark_returns; assumption |].
  assert (Hlen : length os = 5%nat)
    by (rewrite (evaluations_length _ _ _ _ _ _ _ _ _ _ Hev); reflexivity).
  intros i Hi.
  destruct (value_at_bench_table os i) as [-> ->]; [lia |].
  assert (Hin : In (nth i os {| obs_scores := []; obs_start := 0;
                                obs_stop := 0 |}) os)
    by (apply nth_In; lia).
  rewrite Forall_forall in Hall. destruct (Hall _ Hin) as [Hne Hrange].
  fold (scores_at os i) in Hne, Hrange.
  destruct (np_mean_range _ Hne Hrange) as [Hm0 Hm1].
  pose proof (np_std_nonneg (scores_at os i)) as Hs0.
  pose proof (np_std_le_half _ Hne Hrange) as Hs1.
  repeat split.
  - apply round_ge_0; lra.
  - apply round_le_1; lra.
  - apply round_ge_0; lra.
  - apply round_le_1; lra.
Qed.

End MoreFacts.

(** ** Two runs on the same data *)

Section TwoRuns.

Variable ext : Type.
Variable clock : ext -> R.
Variable cross_val_score :
  estimator -> ref -> ref -> Z -> heap * ext -> (exn + list R) * (heap * ext).

Implicit Types (w : world ext) (m : estimator) (X y : ref) (cv : Z).

Local Abbreviation evaluations := (evaluations clock cross_val_score).

(** The fold scores recorded for entry [i] are the ones the cross-validator
    returned for that estimator, in the state the entries before it left. *)
Lemma evaluations_call X y cv ms w os w' :
  evaluations X y cv ms w os w' ->
  forall i d, (i < length ms)%nat ->
    exists wi h s,
      cross_val_score (nth i ms d) X y cv (mem wi, env wi)
      = (inr (scores_at os i), (h, s)).
Proof.
  induction 1 as [w | m ms w scores h s os w' Hcall _ IH]; intros i d Hi.
  - cbn in Hi. lia.
  - destruct i as [| i].
    + exists w, h, s. exact Hcall.
    + cbn in Hi. destruct (IH i d) as (wi & h' & s' & Hcalli); [lia |].
      exists wi, h', s'. exact Hcalli.
Qed.

(** C2.  What the code does for the claim and what it leaves open.  Take a
    cross-validator that leaves the arrays alone and gives an estimator
    built with a seed scores that depend on the estimator, the data and
    [cv] only, and two returning runs of [ml_benchmark] on the same data,
    started in any two external states.  The estimator of the fourth roster
    entry is built without [random_state]; call [a] and [b] the fold scores
    the cross-validator returns for it in the two runs.  Then the two tables
    have the same mean score and the same spread in every row exactly when
    [a] and [b] reduce to the same two rounded numbers: the four seeded rows
    always agree, and the fourth row agrees only if the library happens to
    return matching scores for the unseeded estimator. *)
Theorem rows_agree_iff_unseeded_scores_agree
    X y cv w1 os1 w1' w2 os2 w2' :
  (forall r, r = X \/ r = y ->
     forall m h s, fst (snd (cross_val_score m X y cv (h, s))) r = h r) ->
  (forall m (h1 : heap) s1 (h2 : heap) s2,
     seed_of m <> None -> h1 X = h2 X -> h1 y = h2 y ->
     fst (cross_val_score m X y cv (h1, s1))
     = fst (cross_val_score m X y cv (h2, s2))) ->
  mem w1 X = mem w2 X -> mem w1 y = mem w2 y ->
  length (shape (mem w1 y)) = 1%nat ->
  evaluations X y cv roster (reported X y w1) os1 w1' ->
  length (shape (mem w2 y)) = 1%nat ->
  evaluations X y cv roster (reported X y w2) os2 w2' ->
  exists df1 df2 a b s1 s1' s2 s2',
    ml_benchmark clock cross_val_score X y cv w1 = (inr df1, w1')
    /\ ml_benchmark clock cross_val_score X y cv w2 = (inr df2, w2')
    /\ seed_of (GradientBoostingClassifier 50 2 None) = None
    /\ cross_val_score (GradientBoostingClassifier 50 2 None) X y cv s1
       = (inr a, s1')
    /\ cross_val_score (GradientBoostingClassifier 50 2 None) X y cv s2
       = (inr b, s2')
    /\ value_at df1 3 0 = round (np_mean a) 3
    /\ value_at df1 3 1 = round (np_std a * 2) 3
    /\ value_at df2 3 0 = round (np_mean b) 3
    /\ value_at df2 3 1 = round (np_std b * 2) 3
    /\ ((forall i, (i < 5)%nat ->
           value_at df1 i 0 = value_at df2 i 0
           /\ value_at df1 i 1 = value_at df2 i 1)
        <-> (round (np_mean a) 3 = round (np_mean b) 3
             /\ round (np_std a * 2) 3 = round (np_std b * 2) 3)).
Proof.
  intros Hframe Hseed HX Hy Hd1 He1 Hd2 He2.
  assert (L1 : length os1 = 5%nat)
    by (rewrite (evaluations_length _ _ _ _ _ _ _ _ _ _ He1); reflexivity).
  assert (L2 : length os2 = 5%nat)
    by (rewrite (evaluations_length _ _ _ _ _ _ _ _ _ _ He2); reflexivity).
  destruct (evaluations_call _ _ _ _ _ _ _ He1 3%nat
              (GradientBoostingClassifier 50 2 None))
    as (wa & ha & sa & Hcalla); [cbn; lia |].
  destruct (evaluations_call _ _ _ _ _ _ _ He2 3%nat
              (GradientBoostingClassifier 50 2 None))
    as (wb & hb & sb & Hcallb); [cbn; lia |].
  cbn [nth roster] in Hcalla, Hcallb.
  exists (bench_table os1), (bench_table os2),
         (scores_at os1 3), (scores_at os2 3),
         (mem wa, env wa), (ha, sa), (mem wb, env wb), (hb, sb).
  split; [apply ml_benchmark_returns; assumption |].
  split; [apply ml_benchmark_returns; assumption |].
  split; [reflexivity |].
  split; [exact Hcalla |]. split; [exact Hcallb |].
  destruct (value_at_bench_table os1 3) as [Hm1 Hs1]; [lia |].
  destruct (value_at_bench_table os2 3) as [Hm2 Hs2]; [lia |].
  split; [exact Hm1 |]. split; [exact Hs1 |].
  split; [exact Hm2 |]. split; [exact Hs2 |].
  split.
  - intros Hrows. destruct (Hrows 3%nat) as [Hm Hs]; [lia |].
    rewrite Hm1, Hm2 in Hm. rewrite Hs1, Hs2 in Hs. split; assumption.
  - intros [Hm Hs] i Hi.
    destruct (Nat.eq_dec i 3) as [-> | Hneq].
    + rewrite Hm1, Hm2, Hs1, Hs2. split; assumption.
    + destruct (value_at_bench_table os1 i) as [-> ->]; [lia |].
      destruct (value_at_bench_table os2 i) as [-> ->]; [lia |].
      rewrite (seeded_scores_reproducible ext clock cross_val_score X y cv
                 Hframe Hseed roster _ _ _ He1 _ _ _ He2 HX Hy i);
        [split; reflexivity |].
      destruct i as [| [| [| [| [| i]]]]]; cbn; try discriminate; lia.
Qed.

End TwoRuns.

(** ** Averages stay within the bounds of their inputs *)



(** ** [sort_values] *)

Lemma insert_row_permutation (ascending : bool) (j : nat)
    (x : string * list cell) (rows : list (string * list cell)) :
  Permutation (insert_row ascending j x rows) (x :: rows).
Proof.
  induction rows as [| r rows IH]; cbn; [reflexivity |].
  destruct (goes_before _ _ _); [reflexivity |].
  rewrite IH. apply perm_swap.
Qed.

Lemma sorted_rows_permutation (ascending : bool) (j : nat)
    (rows : list (string * list cell)) :
  Permutation (fold_right (insert_row ascending j) [] rows) rows.
Proof.
  induction rows as [| r rows IH]; cbn; [reflexivity |].
  rewrite insert_row_permutation. constructor. exact IH.
Qed.

Lemma combine_fst_snd {A B} (l : list (A * B)) :
  combine (map fst l) (map snd l) = l.
Proof.
  induction l as [| [a b] l IH]; cbn; [reflexivity | rewrite IH; reflexivity].
Qed.

(** X11.  Sorting moves whole rows: the sorted table holds the same rows
    as the table, each still under its own label, and the same columns. *)
Theorem sort_values_keeps_rows (df sorted : DataFrame) (by_ : string)
    (ascending : bool) :
  sort_values df by_ ascending = inr sorted ->
  Permutation (combine (index sorted) (values sorted))
              (combine (index df) (values df))
  /\ columns sorted = columns df.
Proof.
  unfold sort_values. destruct (get_loc by_ (columns df)) as [j |];
    [| discriminate].
  intros Hsort. inversion Hsort; subst; clear Hsort. cbn.
  rewrite combine_fst_snd. split; [apply sorted_rows_permutation | reflexivity].
Qed.

Lemma key_order_trans (ascending : bool) (a b c : R) :
  key_order ascending a b -> key_order ascending b c ->
  key_order ascending a c.
Proof. destruct ascending; cbn; lra. Qed.

Lemma goes_before_true (ascending : bool) (kx kr : R) :
  goes_before ascending kx kr = true -> key_order ascending kx kr.
Proof.
  unfold goes_before, key_order.
  destruct ascending; destruct (Rle_dec _ _); intros; try discriminate; lra.
Qed.

Lemma goes_before_false (ascending : bool) (kx kr : R) :
  goes_before ascending kx kr = false -> key_order ascending kr kx.
Proof.
  unfold goes_before, key_order.
  destruct ascending; destruct (Rle_dec _ _); intros; try discriminate; lra.
Qed.

Lemma insert_row_sorted (ascending : bool) (j : nat)
    (x : string * list cell) (rows : list (string * list cell)) :
  StronglySorted (fun a b => key_order ascending (key_at j (snd a))
                                                 (key_at j (snd b))) rows ->
  StronglySorted (fun a b => key_order ascending (key_at j (snd a))
                                                 (key_at j (snd b)))
                 (insert_row ascending j x rows).
Proof.
  induction 1 as [| r rows Hsorted IH Hall]; cbn.
  - constructor; constructor.
  - destruct (goes_before _ _ _) eqn:Hcmp.
    + apply goes_before_true in Hcmp.
      constructor; [constructor; assumption |].
      constructor; [exact Hcmp |].
      eapply Forall_impl; [| exact Hall].
      intros b Hb. cbn in Hb. eapply key_order_trans; eassumption.
    + apply goes_before_false in Hcmp.
      constructor; [exact IH |].
      rewrite (insert_row_permutation ascending j x rows).
      constructor; assumption.
Qed.

Lemma sorted_rows_sorted (ascending : bool) (j : nat)
    (rows : list (string * list cell)) :
  StronglySorted (fun a b => key_order ascending (key_at j (snd a))
                                                 (key_at j (snd b)))
                 (fold_right (insert_row ascending j) [] rows).
Proof.
  induction rows as [| r rows IH]; cbn; [constructor |].
  apply insert_row_sorted. exact IH.
Qed.

Lemma StronglySorted_map {A B} (f : A -> B) (P : B -> B -> Prop) (l : list A) :
  StronglySorted (fun a b => P (f a) (f b)) l -> StronglySorted P (map f l).
Proof.
  induction 1 as [| a l _ IH Hall]; cbn; constructor; [exact IH |].
  apply Forall_map. exact Hall.
Qed.

(** X12.  In the sorted table the numbers of the column sorted by are in
    order: never increasing down the rows with [ascending=False], never
    decreasing with [ascending=True]. *)
Theorem sort_values_sorted (df sorted : DataFrame) (by_ : string)
    (ascending : bool) :
  sort_values df by_ ascending = inr sorted ->
  exists j,
    get_loc by_ (columns df) = Some j
    /\ StronglySorted (if ascending then Rle else Rge)
                      (map (key_at j) (values sorted)).
Proof.
  unfold sort_values. destruct (get_loc by_ (columns df)) as [j |];
    [| discriminate].
  intros Hsort. inversion Hsort; subst; clear Hsort. cbn.
  exists j. split; [reflexivity |].
  rewrite map_map.
  apply (StronglySorted_map (fun r => key_at j (snd r))
                            (key_order ascending)).
  apply sorted_rows_sorted.
Qed.

(** ** [perc_inc] *)

Lemma StronglySorted_Rge_nth (l : list R) :
  StronglySorted Rge l ->
  forall a b, (a <= b < length l)%nat -> nth b l 0 <= nth a l 0.
Proof.
  induction 1 as [| x l _ IH Hall]; intros a b [Hab Hb]; cbn in *; [lia |].
  destruct a as [| a]; destruct b as [| b]; try lia; try lra.
  - rewrite Forall_forall in Hall.
    assert (Hin : In (nth b l 0) l) by (apply nth_In; lia).
    specialize (Hall _ Hin). lra.
  - apply IH. lia.
Qed.

Lemma map_snd_combine {A B} (l1 : list A) (l2 : list B) :
  length l1 = length l2 -> map snd (combine l1 l2) = l2.
Proof.
  revert l2. induction l1 as [| a l1 IH]; intros [| b l2] Hlen; cbn in *;
    try discriminate; [reflexivity |].
  rewrite IH by lia. reflexivity.
Qed.

(** X13.  On a benchmark table with positive mean scores, sorted by
    decreasing mean score, [perc_inc] returns a non-negative number: the
    first and the last mean score it reads are the largest and the smallest
    of the table, whichever classifiers they belong to, and the result is
    their relative difference in percent, rounded to 2 digits. *)
Theorem perc_inc_of_sorted (df sorted : DataFrame) :
  benchmark_table df ->
  (forall i, (i < 5)%nat -> 0 < value_at df i 0) ->
  sort_values df "Approx. mean of scores" false = inr sorted ->
  exists p,
    perc_inc sorted = inr p
    /\ 0 <= p
    /\ p = round ((value_at sorted 0 0 - value_at sorted 4 0)
                  / value_at sorted 4 0 * 100) 2
    /\ forall i, (i < 5)%nat ->
         value_at sorted 4 0 <= value_at df i 0 <= value_at sorted 0 0.
Proof.
  intros Hdf Hpos Hsort.
  destruct (sort_values_keeps_rows _ _ _ _ Hsort) as [Hperm Hcols].
  destruct (sort_values_sorted _ _ _ _ Hsort) as (j & Hloc & Hsorted).
  destruct Hdf as (Hindex & Hcolumns & Hlen & _).
  rewrite Hcolumns in Hloc, Hcols. cbn in Hloc. inversion Hloc; subst j.
  assert (Hvalues : Permutation (values sorted) (values df)).
  { assert (Hs : length (index sorted) = length (values sorted)).
    { unfold sort_values in Hsort. rewrite Hcolumns in Hsort. cbn in Hsort.
      inversion Hsort; subst. cbn. rewrite !length_map. reflexivity. }
    assert (Hd : length (index df) = length (values df))
      by (rewrite Hindex, Hlen; reflexivity).
    rewrite <- (map_snd_combine _ _ Hs), <- (map_snd_combine _ _ Hd).
    apply Permutation_map. exact Hperm. }
  assert (Hlen' : length (values sorted) = 5%nat)
    by (rewrite (Permutation_length Hvalues); exact Hlen).
  set (scores := map (key_at 0) (values sorted)) in *.
  assert (Hscores : length scores = 5%nat)
    by (unfold scores; rewrite length_map; exact Hlen').
  assert (Hnth : forall i, value_at sorted i 0 = nth i scores 0).
  { intros i. unfold value_at, scores.
    change 0 with (key_at 0 []) at 2. rewrite map_nth. reflexivity. }
  assert (Hbetween : forall i, (i < 5)%nat ->
            nth 4 scores 0 <= value_at df i 0 <= nth 0 scores 0).
  { intros i Hi.
    assert (Hin : In (value_at df i 0) scores).
    { unfold scores. apply in_map_iff. exists (nth i (values df) []).
      split; [reflexivity |].
      apply (Permutation_in _ (Permutation_sym Hvalues)).
      apply nth_In. lia. }
    destruct (In_nth _ _ 0 Hin) as (k & Hk & <-).
    split; apply (StronglySorted_Rge_nth scores Hsorted); lia. }
  assert (Hlast : 0 < nth 4 scores 0).
  { assert (Hin : In (nth 4 (values sorted) []) (values df)).
    { apply (Permutation_in _ Hvalues). apply nth_In. lia. }
    destruct (In_nth _ _ [] Hin) as (k & Hk & Heq).
    rewrite <- Hnth. unfold value_at. rewrite <- Heq.
    apply (Hpos k). lia. }
  exists (round ((nth 0 scores 0 - nth 4 scores 0) / nth 4 scores 0 * 100) 2).
  split; [| split; [| split]].
  - unfold perc_inc. rewrite Hcols. cbn [get_loc String.eqb Ascii.eqb Bool.eqb].
    cbn. fold scores.
    destruct scores as [| s0 [| s1 [| s2 [| s3 [| s4 [| ]]]]]];
      try discriminate. reflexivity.
  - apply round_ge_0.
    pose proof (Hbetween 0%nat ltac:(lia)) as [Hlo Hhi].
    apply Rmult_le_pos; [| lra].
    apply Rmult_le_pos; [lra |]. left. apply Rinv_0_lt_compat. exact Hlast.
  - rewrite !Hnth. reflexivity.
  - intros i Hi. rewrite !Hnth. apply Hbetween. exact Hi.
Qed.

(** ** [best_preds] *)

Lemma argmax_from_spec (line : list R) :
  forall (seen : list R) (best_i : nat) (best : R),
    (best_i < length seen)%nat ->
    nth best_i seen 0 = best ->
    (forall x, In x seen -> x <= best) ->
    (forall i, (i < best_i)%nat -> nth i seen 0 < best) ->
    let k := argmax_from best_i best (length seen) line in
    (k < length (seen ++ line))%nat
    /\ (forall x, In x (seen ++ line) -> x <= nth k (seen ++ line) 0)
    /\ (forall i, (i < k)%nat -> nth i (seen ++ line) 0 < nth k (seen ++ line) 0).
Proof.
  induction line as [| x line IH]; intros seen best_i best Hlt Hbest Hmax Hfirst.
  - cbn. rewrite app_nil_r. rewrite Hbest. auto.
  - cbn [argmax_from].
    replace (seen ++ x :: line) with ((seen ++ [x]) ++ line)
      by (rewrite <- app_assoc; reflexivity).
    replace (S (length seen)) with (length (seen ++ [x]))
      by (rewrite length_app; cbn; lia).
    destruct (Rlt_dec best x) as [Hbx | Hbx].
    + apply IH.
      * rewrite length_app. cbn. lia.
      * rewrite app_nth2 by lia. rewrite Nat.sub_diag. reflexivity.
      * intros z Hin. apply in_app_or in Hin. destruct Hin as [Hin | [<- | []]].
        -- specialize (Hmax z Hin). lra.
        -- lra.
      * intros i Hi. rewrite app_nth1 by exact Hi.
        assert (Hin : In (nth i seen 0) seen) by (apply nth_In; exact Hi).
        specialize (Hmax _ Hin). lra.
    + apply IH.
      * rewrite length_app. cbn. lia.
      * rewrite app_nth1 by exact Hlt. exact Hbest.
      * intros z Hin. apply in_app_or in Hin. destruct Hin as [Hin | [<- | []]].
        -- apply Hmax. exact Hin.
        -- lra.
      * intros i Hi. rewrite app_nth1 by lia. apply Hfirst. exact Hi.
Qed.

Lemma np_argmax_spec (line : list R) (k : nat) :
  np_argmax line = inr k ->
  (k < length line)%nat
  /\ (forall x, In x line -> x <= nth k line 0)
  /\ (forall i, (i < k)%nat -> nth i line 0 < nth k line 0).
Proof.
  destruct line as [| x line]; cbn [np_argmax]; [discriminate |].
  intros Heq. inversion Heq; subst; clear Heq.
  apply (argmax_from_spec line [x] 0%nat x).
  - cbn. lia.
  - reflexivity.
  - intros z [<- | []]. lra.
  - intros i Hi. lia.
Qed.

(** X14.  When [best_preds] returns, it gives one class per row, and the
    class of a row is the position of the largest number of the row, the
    first one if the largest number occurs several times. *)
Theorem best_preds_are_first_largest (preds : list (list R)) (ks : list nat) :
  best_preds preds = inr ks ->
  Forall2 (fun line k =>
             (k < length line)%nat
             /\ (forall x, In x line -> x <= nth k line 0)
             /\ (forall i, (i < k)%nat -> nth i line 0 < nth k line 0))
          preds ks.
Proof.
  revert ks. induction preds as [| line preds IH]; intros ks; cbn.
  - intros Heq. inversion Heq. constructor.
  - destruct (np_argmax line) as [e | k] eqn:Hline; [discriminate |].
    destruct (best_preds preds) as [e | ks'] eqn:Hrest; [discriminate |].
    intros Heq. inversion Heq; subst; clear Heq.
    constructor; [apply np_argmax_spec; exact Hline | apply IH; reflexivity].
Qed.

(** X15.  [best_preds] returns exactly when no row is empty; with an empty
    row it raises [ValueError]. *)
Theorem best_preds_returns_iff (preds : list (list R)) :
  (Forall (fun line => line <> []) preds
   <-> exists ks, best_preds preds = inr ks)
  /\ (In [] preds ->
      best_preds preds
      = inl (Exception "ValueError"
                       "attempt to get argmax of an empty sequence")).
Proof.
  induction preds as [| line preds [[IHto IHfrom] IHempty]]; cbn.
  - split; [split; [eauto | constructor] | intros []].
  - split; [split |].
    + intros Hall. inversion Hall as [| ? ? Hline Hrest]; subst.
      destruct line as [| x line]; [congruence |]. cbn.
      destruct (IHto Hrest) as (ks & ->). eauto.
    + intros (ks & Heq).
      destruct line as [| x line]; [discriminate |]. cbn in Heq.
      destruct (best_preds preds) as [e | ks'] eqn:Hrest; [discriminate |].
      constructor; [discriminate | apply IHfrom; eauto].
    + intros [-> | Hin]; [reflexivity |].
      destruct line as [| x line]; [reflexivity |]. cbn.
      rewrite (IHempty Hin). reflexivity.
Qed.

(** ** The further theorems at concrete inputs *)

Lemma score_and_time_rounding_error_witness :
  Toy.cross_val_score (DecisionTreeClassifier None (Some 0%Z))
    Toy.X_dataset Toy.y_dataset 2 (mem Toy.start, env Toy.start)
  = (inr [1; 1], (Toy.memory, (0 + 1, 0%nat)))
  /\ exists mean_score score_spread duration w',
       score_and_time Toy.clock Toy.cross_val_score
         (DecisionTreeClassifier None (Some 0%Z))
         Toy.X_dataset Toy.y_dataset 2 Toy.start
       = (inr [Float mean_score; Float score_spread; Timedelta duration], w')
       /\ Rabs (mean_score - np_mean [1; 1]) <= 5 / 10000
       /\ Rabs (score_spread - np_std [1; 1] * 2) <= 5 / 10000.
Proof.
  split; [reflexivity |].
  apply (score_and_time_rounding_error Toy.ext Toy.clock Toy.cross_val_score
           (DecisionTreeClassifier None (Some 0%Z)) Toy.X_dataset Toy.y_dataset 2
           Toy.start [1; 1] Toy.memory (0 + 1, 0%nat)).
  reflexivity.
Defined.

Lemma score_and_time_spread_at_most_1_witness :
  Toy.cross_val_score (DecisionTreeClassifier None (Some 0%Z))
    Toy.X_dataset Toy.y_dataset 2 (mem Toy.start, env Toy.start)
  = (inr [1; 1], (Toy.memory, (0 + 1, 0%nat)))
  /\ [1; 1] <> []
  /\ Forall (fun x => 0 <= x <= 1) [1; 1]
  /\ exists mean_score score_spread duration w',
       score_and_time Toy.clock Toy.cross_val_score
         (DecisionTreeClassifier None (Some 0%Z))
         Toy.X_dataset Toy.y_dataset 2 Toy.start
       = (inr [Float mean_score; Float score_spread; Timedelta duration], w')
       /\ score_spread <= 1.
Proof.
  assert (H1 : [1; 1] <> @nil R) by discriminate.
  assert (H2 : Forall (fun x => 0 <= x <= 1) [1; 1])
    by (repeat constructor; lra).
  split; [reflexivity |]. split; [exact H1 |]. split; [exact H2 |].
  apply (score_and_time_spread_at_most_1 Toy.ext Toy.clock Toy.cross_val_score
           (DecisionTreeClassifier None (Some 0%Z)) Toy.X_dataset Toy.y_dataset 2
           Toy.start [1; 1] Toy.memory (0 + 1, 0%nat));
    [reflexivity | exact H1 | exact H2].
Defined.



(** The two arguments in the wrong order: the feature matrix, which has two
    dimensions and four rows, is passed as the label array. *)
Lemma ml_benchmark_rejects_labels_witness :
  set_raises (mem Toy.start Toy.X_dataset) = true
  /\ ml_benchmark Toy.clock Toy.cross_val_score Toy.y_dataset Toy.X_dataset 2
       Toy.start
     = (inl (Exception "TypeError" "unhashable or not iterable"),
        {| mem := mem Toy.start; env := env Toy.start;
           log := log Toy.start ++
             [ EvPrint "The shape of X_dataset is:"
                       (PShape (shape (mem Toy.start Toy.y_dataset)));
               EvPrint "The shape of y_dataset is:"
                       (PShape (shape (mem Toy.start Toy.X_dataset))) ] |}).
Proof.
  assert (Hset : set_raises (mem Toy.start Toy.X_dataset) = true)
    by reflexivity.
  split; [exact Hset |].
  exact (ml_benchmark_rejects_labels Toy.ext Toy.clock Toy.cross_val_score
           Toy.y_dataset Toy.X_dataset 2 Toy.start Hset).
Defined.

(** A run with a single fold: the cross-validator refuses the first
    estimator. *)
Lemma Toy_single_fold_run :
  ml_benchmark Toy.clock Toy.cross_val_score Toy.X_dataset Toy.y_dataset 1
    Toy.start
  = (inl (Exception "ValueError" "n_splits must be at least 2"),
     {| mem := Toy.memory; env := (0, 0%nat);
        log := log (reported Toy.X_dataset Toy.y_dataset Toy.start) ++
          [ EvProcessTime 0;
            EvCrossValScore (DecisionTreeClassifier None (Some 0%Z))
              Toy.X_dataset Toy.y_dataset 1 ] |}).
Proof.
  rewrite ml_benchmark_loop. unfold bind.
  rewrite report_returns by reflexivity.
  change roster
    with ([] ++ DecisionTreeClassifier None (Some 0%Z) :: tl roster).
  rewrite (for_each_raises Toy.ext Toy.clock Toy.cross_val_score
             Toy.X_dataset Toy.y_dataset 1 []
             (DecisionTreeClassifier None (Some 0%Z)) (tl roster)
             (reported Toy.X_dataset Toy.y_dataset Toy.start) []
             (reported Toy.X_dataset Toy.y_dataset Toy.start)
             (Exception "ValueError" "n_splits must be at least 2")
             {| mem := Toy.memory; env := (0, 0%nat);
                log := log (reported Toy.X_dataset Toy.y_dataset Toy.start) ++
                  [ EvProcessTime 0;
                    EvCrossValScore (DecisionTreeClassifier None (Some 0%Z))
                      Toy.X_dataset Toy.y_dataset 1 ] |}).
  - reflexivity.
  - apply evaluations_nil.
  - apply (score_and_time_raises Toy.ext Toy.clock Toy.cross_val_score
             (DecisionTreeClassifier None (Some 0%Z))
             Toy.X_dataset Toy.y_dataset 1
             (reported Toy.X_dataset Toy.y_dataset Toy.start)
             (Exception "ValueError" "n_splits must be at least 2")
             Toy.memory (0, 0%nat)).
    reflexivity.
Qed.

Lemma ml_benchmark_failure_sources_witness :
  let e := Exception "ValueError" "n_splits must be at least 2" in
  let w' := {| mem := Toy.memory; env := (0, 0%nat);
               log := log (reported Toy.X_dataset Toy.y_dataset Toy.start) ++
                 [ EvProcessTime 0;
                   EvCrossValScore (DecisionTreeClassifier None (Some 0%Z))
                     Toy.X_dataset Toy.y_dataset 1 ] |} in
  ml_benchmark Toy.clock Toy.cross_val_score Toy.X_dataset Toy.y_dataset 1
    Toy.start = (inl e, w')
  /\ ((length (shape (mem Toy.start Toy.y_dataset)) <> 1%nat
       /\ e = Exception "TypeError" "unhashable or not iterable")
      \/ exists pre m post os w1 h s,
           roster = pre ++ m :: post
           /\ evaluations Toy.clock Toy.cross_val_score
                Toy.X_dataset Toy.y_dataset 1 pre
                (reported Toy.X_dataset Toy.y_dataset Toy.start) os w1
           /\ Toy.cross_val_score m Toy.X_dataset Toy.y_dataset 1
                (mem w1, env w1) = (inl e, (h, s))).
Proof.
  intros e w'. split; [exact Toy_single_fold_run |].
  exact (ml_benchmark_failure_sources Toy.ext Toy.clock Toy.cross_val_score
           Toy.X_dataset Toy.y_dataset 1 Toy.start e w' Toy_single_fold_run).
Defined.

Lemma ml_benchmark_cells_in_range_witness :
  length (shape (mem Toy.start Toy.y_dataset)) = 1%nat
  /\ evaluations Toy.clock Toy.cross_val_score Toy.X_dataset Toy.y_dataset 2
       roster (reported Toy.X_dataset Toy.y_dataset Toy.start)
       Toy.first_observations Toy.after_first_run
  /\ Forall (fun o => obs_scores o <> []
                      /\ Forall (fun x => 0 <= x <= 1) (obs_scores o))
            Toy.first_observations
  /\ exists df,
       ml_benchmark Toy.clock Toy.cross_val_score Toy.X_dataset Toy.y_dataset 2
         Toy.start = (inr df, Toy.after_first_run)
       /\ forall i, (i < 5)%nat ->
            0 <= value_at df i 0 <= 1 /\ 0 <= value_at df i 1 <= 1.
Proof.
  assert (Hdim : length (shape (mem Toy.start Toy.y_dataset)) = 1%nat)
    by reflexivity.
  assert (Hall : Forall (fun o => obs_scores o <> []
                                  /\ Forall (fun x => 0 <= x <= 1)
                                            (obs_scores o))
                        Toy.first_observations).
  { unfold Toy.first_observations.
    repeat (apply Forall_cons;
            [split; [discriminate | repeat constructor; lra] |]).
    apply Forall_nil. }
  split; [exact Hdim |]. split; [exact Toy_first_run |].
  split; [exact Hall |].
  exact (ml_benchmark_cells_in_range Toy.ext Toy.clock Toy.cross_val_score
           Toy.X_dataset Toy.y_dataset 2 Toy.start Toy.first_observations
           Toy.after_first_run Hdim Toy_first_run Hall).
Defined.

Lemma seeded_rows_reproducible_witness :
  exists df2 w2,
    (forall r, r = Toy.X_dataset \/ r = Toy.y_dataset ->
       forall m (h : heap) (s : Toy.ext),
         fst (snd (Toy.cross_val_score m Toy.X_dataset Toy.y_dataset 2 (h, s))) r
         = h r)
    /\ (forall m (h1 : heap) (s1 : Toy.ext) (h2 : heap) (s2 : Toy.ext),
          seed_of m <> None ->
          h1 Toy.X_dataset = h2 Toy.X_dataset ->
          h1 Toy.y_dataset = h2 Toy.y_dataset ->
          fst (Toy.cross_val_score m Toy.X_dataset Toy.y_dataset 2 (h1, s1))
          = fst (Toy.cross_val_score m Toy.X_dataset Toy.y_dataset 2 (h2, s2)))
    /\ mem Toy.start Toy.X_dataset = mem Toy.after_first_run Toy.X_dataset
    /\ mem Toy.start Toy.y_dataset = mem Toy.after_first_run Toy.y_dataset
    /\ ml_benchmark Toy.clock Toy.cross_val_score Toy.X_dataset Toy.y_dataset 2
         Toy.start
       = (inr (bench_table Toy.first_observations), Toy.after_first_run)
    /\ ml_benchmark Toy.clock Toy.cross_val_score Toy.X_dataset Toy.y_dataset 2
         Toy.after_first_run = (inr df2, w2)
    /\ forall i, In i [0; 1; 2; 4]%nat ->
         value_at (bench_table Toy.first_observations) i 0 = value_at df2 i 0
         /\ value_at (bench_table Toy.first_observations) i 1
            = value_at df2 i 1.
Proof.
  destruct Toy_second_run as (os2 & w2 & Hev2 & _).
  exists (bench_table os2), w2.
  assert (Hframe : forall r, r = Toy.X_dataset \/ r = Toy.y_dataset ->
            forall m (h : heap) (s : Toy.ext),
              fst (snd (Toy.cross_val_score m Toy.X_dataset Toy.y_dataset 2
                          (h, s))) r = h r)
    by (intros r _ m h s; apply Toy_frame).
  assert (Hseed : forall m (h1 : heap) (s1 : Toy.ext) (h2 : heap) (s2 : Toy.ext),
            seed_of m <> None ->
            h1 Toy.X_dataset = h2 Toy.X_dataset ->
            h1 Toy.y_dataset = h2 Toy.y_dataset ->
            fst (Toy.cross_val_score m Toy.X_dataset Toy.y_dataset 2 (h1, s1))
            = fst (Toy.cross_val_score m Toy.X_dataset Toy.y_dataset 2 (h2, s2)))
    by (intros m h1 s1 h2 s2 Hs _ _; apply Toy_seeded; exact Hs).
  assert (HX : mem Toy.start Toy.X_dataset
               = mem Toy.after_first_run Toy.X_dataset) by reflexivity.
  assert (Hy : mem Toy.start Toy.y_dataset
               = mem Toy.after_first_run Toy.y_dataset) by reflexivity.
  assert (Hrun1 : ml_benchmark Toy.clock Toy.cross_val_score
                    Toy.X_dataset Toy.y_dataset 2 Toy.start
                  = (inr (bench_table Toy.first_observations),
                     Toy.after_first_run))
    by (apply ml_benchmark_returns; [reflexivity | exact Toy_first_run]).
  assert (Hrun2 : ml_benchmark Toy.clock Toy.cross_val_score
                    Toy.X_dataset Toy.y_dataset 2 Toy.after_first_run
                  = (inr (bench_table os2), w2))
    by (apply ml_benchmark_returns; [reflexivity | exact Hev2]).
  split; [exact Hframe |]. split; [exact Hseed |]. split; [exact HX |].
  split; [exact Hy |]. split; [exact Hrun1 |]. split; [exact Hrun2 |].
  exact (seeded_rows_reproducible Toy.ext Toy.clock Toy.cross_val_score
           Toy.X_dataset Toy.y_dataset 2 Toy.start
           (bench_table Toy.first_observations) Toy.after_first_run
           Toy.after_first_run (bench_table os2) w2
           Hframe Hseed HX Hy Hrun1 Hrun2).
Defined.


Lemma sort_values_keeps_rows_witness :
  sort_values Sample.table "Approx. mean of scores" false = inr Sample.sorted
  /\ Permutation (combine (index Sample.sorted) (values Sample.sorted))
                 (combine (index Sample.table) (values Sample.table))
  /\ columns Sample.sorted = columns Sample.table.
Proof.
  split; [reflexivity |].
  apply (sort_values_keeps_rows Sample.table Sample.sorted
           "Approx. mean of scores" false).
  reflexivity.
Defined.

Lemma sort_values_sorted_witness :
  sort_values Sample.table "Approx. mean of scores" false = inr Sample.sorted
  /\ exists j,
       get_loc "Approx. mean of scores" (columns Sample.table) = Some j
       /\ StronglySorted Rge (map (key_at j) (values Sample.sorted)).
Proof.
  split; [reflexivity |].
  apply (sort_values_sorted Sample.table Sample.sorted
           "Approx. mean of scores" false).
  reflexivity.
Defined.

Lemma Sample_table_benchmark_table : benchmark_table Sample.table.
Proof.
  unfold benchmark_table, Sample.table. cbn.
  repeat split. repeat constructor; unfold benchmark_row; eauto.
Qed.

Lemma Sample_table_positive :
  forall i, (i < 5)%nat -> 0 < value_at Sample.table i 0.
Proof.
  intros i Hi. unfold value_at.
  destruct i as [| [| [| [| [| i]]]]]; cbn; try lra; lia.
Qed.

Lemma perc_inc_of_sorted_witness :
  benchmark_table Sample.table
  /\ (forall i, (i < 5)%nat -> 0 < value_at Sample.table i 0)
  /\ sort_values Sample.table "Approx. mean of scores" false
     = inr Sample.sorted
  /\ exists p,
       perc_inc Sample.sorted = inr p
       /\ 0 <= p
       /\ p = round ((value_at Sample.sorted 0 0 - value_at Sample.sorted 4 0)
                     / value_at Sample.sorted 4 0 * 100) 2
       /\ forall i, (i < 5)%nat ->
            value_at Sample.sorted 4 0 <= value_at Sample.table i 0
            <= value_at Sample.sorted 0 0.
Proof.
  split; [exact Sample_table_benchmark_table |].
  split; [exact Sample_table_positive |].
  split; [reflexivity |].
  apply (perc_inc_of_sorted Sample.table Sample.sorted
           Sample_table_benchmark_table Sample_table_positive).
  reflexivity.
Defined.

Lemma Sample_best_preds : best_preds Sample.preds = inr [1; 0]%nat.
Proof.
  unfold Sample.preds. cbn [best_preds np_argmax argmax_from].
  repeat (destruct (Rlt_dec _ _); try (exfalso; lra));
    reflexivity.
Qed.

Lemma best_preds_are_first_largest_witness :
  best_preds Sample.preds = inr [1; 0]%nat
  /\ Forall2 (fun line k =>
                (k < length line)%nat
                /\ (forall x, In x line -> x <= nth k line 0)
                /\ (forall i, (i < k)%nat -> nth i line 0 < nth k line 0))
             Sample.preds [1; 0]%nat.
Proof.
  split; [exact Sample_best_preds |].
  exact (best_preds_are_first_largest Sample.preds [1; 0]%nat
           Sample_best_preds).
Defined.

(** Two runs in a row on the stand-in library. *)
Lemma rows_agree_iff_unseeded_scores_agree_witness :
  exists os2 w2',
    (forall r, r = Toy.X_dataset \/ r = Toy.y_dataset ->
       forall m (h : heap) (s : Toy.ext),
         fst (snd (Toy.cross_val_score m Toy.X_dataset Toy.y_dataset 2 (h, s))) r
         = h r)
    /\ (forall m (h1 : heap) (s1 : Toy.ext) (h2 : heap) (s2 : Toy.ext),
          seed_of m <> None ->
          h1 Toy.X_dataset = h2 Toy.X_dataset ->
          h1 Toy.y_dataset = h2 Toy.y_dataset ->
          fst (Toy.cross_val_score m Toy.X_dataset Toy.y_dataset 2 (h1, s1))
          = fst (Toy.cross_val_score m Toy.X_dataset Toy.y_dataset 2 (h2, s2)))
    /\ mem Toy.start Toy.X_dataset = mem Toy.after_first_run Toy.X_dataset
    /\ mem Toy.start Toy.y_dataset = mem Toy.after_first_run Toy.y_dataset
    /\ length (shape (mem Toy.start Toy.y_dataset)) = 1%nat
    /\ evaluations Toy.clock Toy.cross_val_score Toy.X_dataset Toy.y_dataset 2
         roster (reported Toy.X_dataset Toy.y_dataset Toy.start)
         Toy.first_observations Toy.after_first_run
    /\ length (shape (mem Toy.after_first_run Toy.y_dataset)) = 1%nat
    /\ evaluations Toy.clock Toy.cross_val_score Toy.X_dataset Toy.y_dataset 2
         roster (reported Toy.X_dataset Toy.y_dataset Toy.after_first_run)
         os2 w2'
    /\ exists df1 df2 a b s1 s1' s2 s2',
         ml_benchmark Toy.clock Toy.cross_val_score Toy.X_dataset
           Toy.y_dataset 2 Toy.start = (inr df1, Toy.after_first_run)
         /\ ml_benchmark Toy.clock Toy.cross_val_score Toy.X_dataset
              Toy.y_dataset 2 Toy.after_first_run = (inr df2, w2')
         /\ seed_of (GradientBoostingClassifier 50 2 None) = None
         /\ Toy.cross_val_score (GradientBoostingClassifier 50 2 None)
              Toy.X_dataset Toy.y_dataset 2 s1 = (inr a, s1')
         /\ Toy.cross_val_score (GradientBoostingClassifier 50 2 None)
              Toy.X_dataset Toy.y_dataset 2 s2 = (inr b, s2')
         /\ value_at df1 3 0 = round (np_mean a) 3
         /\ value_at df1 3 1 = round (np_std a * 2) 3
         /\ value_at df2 3 0 = round (np_mean b) 3
         /\ value_at df2 3 1 = round (np_std b * 2) 3
         /\ ((forall i, (i < 5)%nat ->
                value_at df1 i 0 = value_at df2 i 0
                /\ value_at df1 i 1 = value_at df2 i 1)
             <-> (round (np_mean a) 3 = round (np_mean b) 3
                  /\ round (np_std a * 2) 3 = round (np_std b * 2) 3)).
Proof.
  destruct Toy_second_run as (os2 & w2' & Hev2 & _).
  exists os2, w2'.
  assert (Hframe : forall r, r = Toy.X_dataset \/ r = Toy.y_dataset ->
            forall m (h : heap) (s : Toy.ext),
              fst (snd (Toy.cross_val_score m Toy.X_dataset Toy.y_dataset 2
                          (h, s))) r = h r)
    by (intros r _ m h s; apply Toy_frame).
  assert (Hseed : forall m (h1 : heap) (s1 : Toy.ext) (h2 : heap) (s2 : Toy.ext),
            seed_of m <> None ->
            h1 Toy.X_dataset = h2 Toy.X_dataset ->
            h1 Toy.y_dataset = h2 Toy.y_dataset ->
            fst (Toy.cross_val_score m Toy.X_dataset Toy.y_dataset 2 (h1, s1))
            = fst (Toy.cross_val_score m Toy.X_dataset Toy.y_dataset 2 (h2, s2)))
    by (intros m h1 s1 h2 s2 Hs _ _; apply Toy_seeded; exact Hs).
  assert (HX : mem Toy.start Toy.X_dataset
               = mem Toy.after_first_run Toy.X_dataset) by reflexivity.
  assert (Hy : mem Toy.start Toy.y_dataset
               = mem Toy.after_first_run Toy.y_dataset) by reflexivity.
  assert (Hd1 : length (shape (mem Toy.start Toy.y_dataset)) = 1%nat)
    by reflexivity.
  assert (Hd2 : length (shape (mem Toy.after_first_run Toy.y_dataset)) = 1%nat)
    by reflexivity.
  split; [exact Hframe |]. split; [exact Hseed |]. split; [exact HX |].
  split; [exact Hy |]. split; [exact Hd1 |]. split; [exact Toy_first_run |].
  split; [exact Hd2 |]. split; [exact Hev2 |].
  exact (rows_agree_iff_unseeded_scores_agree Toy.ext Toy.clock
           Toy.cross_val_score Toy.X_dataset Toy.y_dataset 2
           Toy.start Toy.first_observations Toy.after_first_run
           Toy.after_first_run os2 w2'
           Hframe Hseed HX Hy Hd1 Toy_first_run Hd2 Hev2).
Defined.
